(** * snakemake/shell.py: the [shell] command runner

    A shallow embedding of [src/snakemake/shell.py]: the class-level
    configuration ([_process_args], [_process_prefix], [_process_suffix]),
    the registry of live processes ([_processes]) and the three execution
    protocols of [shell.__new__] (fire-and-forget, capture, streaming).

    Python strings are modelled as [string], a character standing for a code
    point below 256.  Dictionaries are [gmap]s.  Effects (the class
    attributes, the child processes, the logger) are threaded through a
    state-and-exception monad over [world]. *)

From Stdlib Require Import ZArith Ascii String List Bool Lia.
From stdpp Require Import base option gmap strings list fin_maps pretty.

Open Scope string_scope.

(** ** Python values *)

(** The values that occur in a rule's execution context and in the frame of
    [shell.__new__]: [None], booleans, integers, strings, opaque objects of
    the caller (such as an [EnvModules] instance) named by an identifier, and
    objects of the interpreter that the model does not look into (a class, a
    tuple, a dictionary, a function, a stream), named by the variable that
    holds them. *)
Inductive pyval :=
| PyNone
| PyBool (b : bool)
| PyInt (z : Z)
| PyStr (s : string)
| PyObj (id : nat)
| PyInternal (name : string).

#[global] Instance pyval_eq_dec : EqDecision pyval.
Proof. solve_decision. Defined.

Definition pyval_enc (v : pyval) : unit + bool + Z + string + nat + string :=
  match v with
  | PyNone => inl (inl (inl (inl (inl tt))))
  | PyBool b => inl (inl (inl (inl (inr b))))
  | PyInt z => inl (inl (inl (inr z)))
  | PyStr s => inl (inl (inr s))
  | PyObj n => inl (inr n)
  | PyInternal n => inr n
  end.

Definition pyval_dec (x : unit + bool + Z + string + nat + string) : pyval :=
  match x with
  | inl (inl (inl (inl (inl _)))) => PyNone
  | inl (inl (inl (inl (inr b)))) => PyBool b
  | inl (inl (inl (inr z))) => PyInt z
  | inl (inl (inr s)) => PyStr s
  | inl (inr n) => PyObj n
  | inr n => PyInternal n
  end.

#[global] Instance pyval_countable : Countable pyval.
Proof.
  apply (inj_countable' pyval_enc pyval_dec).
  intros []; reflexivity.
Defined.

(** Python truthiness: [None], [False], [0] and the empty string are false;
    an object without [__bool__] or [__len__] is true. *)
Definition truthy (v : pyval) : bool :=
  match v with
  | PyNone => false
  | PyBool b => b
  | PyInt z => negb (z =? 0)%Z
  | PyStr s => negb (String.eqb s "")
  | PyObj _ => true
  | PyInternal _ => true
  end.

(** A value as a dictionary key: [True] and [False] hash and compare equal
    to [1] and [0], so they name the same entry. *)
Definition dict_key (v : pyval) : pyval :=
  match v with
  | PyBool b => PyInt (if b then 1 else 0)
  | _ => v
  end.

(** ** Strings *)

(** [str.isspace] on code points below 256: tab to carriage return, the four
    separators 0x1c-0x1f, the space, NEL and the no-break space. *)
Definition is_space (c : ascii) : bool :=
  let n := nat_of_ascii c in
  ((9 <=? n)%nat && (n <=? 13)%nat) || ((28 <=? n)%nat && (n <=? 32)%nat)
  || (n =? 133)%nat || (n =? 160)%nat.

Fixpoint lstrip (s : string) : string :=
  match s with
  | "" => ""
  | String c r => if is_space c then lstrip r else s
  end.

Fixpoint rstrip (s : string) : string :=
  match s with
  | "" => ""
  | String c r =>
      match rstrip r with
      | "" => if is_space c then "" else String c ""
      | r' => String c r'
      end
  end.

(** [s.strip()] *)
Definition strip (s : string) : string := rstrip (lstrip s).

(** [l[:-1]]: everything but the last character; the empty string stays
    empty. *)
Fixpoint drop_last (s : string) : string :=
  match s with
  | "" => ""
  | String c r => match r with "" => "" | _ => String c (drop_last r) end
  end.

Definition newline : ascii := ascii_of_nat 10.

(** The lines of a text stream as iteration over a file object produces
    them: each line keeps its terminator, and only the last one may lack
    it. *)
Fixpoint split_keepends (s : string) : list string :=
  match s with
  | "" => []
  | String c r =>
      if Ascii.eqb c newline then String c "" :: split_keepends r
      else match split_keepends r with
           | [] => [String c ""]
           | l :: ls => String c l :: ls
           end
  end.

Fixpoint ends_with_newline (s : string) : bool :=
  match s with
  | "" => false
  | String c r => match r with "" => Ascii.eqb c newline | _ => ends_with_newline r end
  end.

(** A line without its terminator, when it has one. *)
Definition strip_terminator (l : string) : string :=
  if ends_with_newline l then drop_last l else l.

(** [s.startswith(pat)] *)
Fixpoint startswith (pat s : string) : bool :=
  match pat, s with
  | "", _ => true
  | String a p, String b r => Ascii.eqb a b && startswith p r
  | String _ _, "" => false
  end.

(** The number of positions of [s] at which [pat] occurs. *)
Fixpoint occurrences (pat s : string) : nat :=
  (if startswith pat s then 1 else 0) +
  match s with
  | "" => 0
  | String _ r => occurrences pat r
  end.

(** ** Exceptions *)

Inductive exn :=
| KeyError (msg : string)
| NameError (name : string)
| WorkflowError (msg : string)
| ValueError (msg : string)
| IndexError (msg : string)
| OSError (msg : string)
| CalledProcessError (returncode : Z) (cmd : string).

#[global] Instance exn_eq_dec : EqDecision exn.
Proof. solve_decision. Defined.

(** ** The platform and the collaborators *)

(** The [stdout] argument of [Popen]: [sp.PIPE], the parent's [sys.stdout],
    or [None] (the module constant [STDOUT] is [None] when [sys.stdout] is
    not a [TextIOWrapper]). *)
Inductive stdout_disp := PIPE | SysStdout | NoStdout.

(** The arguments [shell.__new__] passes to [sp.Popen] (lines 131-139);
    [shell=True] and [bufsize=-1] are constants. *)
Record popen_args := {
  pa_cmd : string;
  pa_stdout : stdout_disp;
  pa_universal_newlines : bool;
  pa_close_fds : bool;
  pa_process_args : gmap string string
}.

(** What the operating system makes of a child: the text on its standard
    output and the exit code [wait] reports. *)
Record outcome := { out_text : string; out_returncode : Z }.

(** Everything outside [shell.py] that the module calls: the interpreter's
    platform constants, [shutil.which], [os.path] on a non-POSIX system,
    process creation, the three activation helpers, each a function from a
    command string to a command string, and [str] on the objects the model
    does not look into. *)
Record platform := {
  os_name_posix : bool;
  sys_platform_win32 : bool;
  sys_stdout_is_text : bool;
  shutil_which : string -> option string;
  ntpath_split_tail : string -> string;
  os_popen : popen_args -> exn + outcome;
  env_modules_shellcmd : pyval -> string -> string;
  conda_shellcmd : pyval -> pyval -> string -> string;
  singularity_shellcmd : pyval -> string -> pyval -> string -> pyval -> string;
  obj_str : nat -> string;
  internal_str : string -> string
}.

(** [posixpath.isabs]: the path starts with a slash. *)
Definition posix_isabs (p : string) : bool :=
  match p with
  | String c _ => Ascii.eqb c "/"
  | "" => false
  end.

(** [posixpath.split(p)[-1]]: what follows the last slash. *)
Fixpoint posix_split_tail (p : string) : string :=
  match p with
  | "" => ""
  | String c r =>
      if Ascii.eqb c "/" then posix_split_tail r
      else if existsb (Ascii.eqb "/") (list_ascii_of_string r)
           then posix_split_tail r else p
  end.

(** [str(v)] *)
Definition py_str (P : platform) (v : pyval) : string :=
  match v with
  | PyNone => "None"
  | PyBool b => if b then "True" else "False"
  | PyInt z => pretty z
  | PyStr s => s
  | PyObj n => obj_str P n
  | PyInternal n => internal_str P n
  end.

(** ** The world *)

(** A child process as its handle sees it: the lines of its standard output
    that have not been read yet (empty unless it was opened with a pipe), the
    exit code [wait] will report and whether it has been reaped. *)
Record process := {
  p_args : popen_args;
  p_unread : list string;
  p_returncode : Z;
  p_reaped : bool
}.

(** What the module does to the outside, in order. *)
Inductive event :=
| EvShellcmd (cmd : string)
| EvInfo (msg : string)
| EvModules (env_modules : pyval) (cmd : string)
| EvConda (container_img conda_env : pyval) (cmd : string)
| EvSingularity (container_img : pyval) (cmd : string) (args : pyval)
    (shell_executable : string) (container_workdir : pyval)
| EvPopen (pid : nat) (args : popen_args)
| EvRead (pid : nat)
| EvBenchEnter (pid : nat) (bench_record : nat)
| EvBenchExit (pid : nat) (bench_record : nat)
| EvWait (pid : nat)
| EvKill (pid : nat)
| EvWarning (msg : string).

(** The class attributes of [shell] (lines 31-35), the table of children
    (a handle is an index into it) and the trace of events.  [_lock] guards
    [_processes]; a single thread of control always finds it free. *)
Record world := {
  _process_args : gmap string string;
  _process_prefix : string;
  _process_suffix : string;
  _processes : gmap pyval nat;
  children : list process;
  trace : list event
}.

Definition set_process_args (f : gmap string string -> gmap string string) (w : world) : world :=
  {| _process_args := f (_process_args w); _process_prefix := _process_prefix w;
     _process_suffix := _process_suffix w; _processes := _processes w;
     children := children w; trace := trace w |}.

Definition set_process_prefix (p : string) (w : world) : world :=
  {| _process_args := _process_args w; _process_prefix := p;
     _process_suffix := _process_suffix w; _processes := _processes w;
     children := children w; trace := trace w |}.

Definition set_process_suffix (s : string) (w : world) : world :=
  {| _process_args := _process_args w; _process_prefix := _process_prefix w;
     _process_suffix := s; _processes := _processes w;
     children := children w; trace := trace w |}.

Definition set_processes (f : gmap pyval nat -> gmap pyval nat) (w : world) : world :=
  {| _process_args := _process_args w; _process_prefix := _process_prefix w;
     _process_suffix := _process_suffix w; _processes := f (_processes w);
     children := children w; trace := trace w |}.

Definition set_children (f : list process -> list process) (w : world) : world :=
  {| _process_args := _process_args w; _process_prefix := _process_prefix w;
     _process_suffix := _process_suffix w; _processes := _processes w;
     children := f (children w); trace := trace w |}.

Definition emit (e : event) (w : world) : world :=
  {| _process_args := _process_args w; _process_prefix := _process_prefix w;
     _process_suffix := _process_suffix w; _processes := _processes w;
     children := children w; trace := trace w ++ [e] |}.

(** The state of the class when the module body starts (lines 31-35). *)
Definition world0 : world :=
  {| _process_args := ∅; _process_prefix := ""; _process_suffix := "";
     _processes := ∅; children := []; trace := [] |}.

(** ** The monad: state that survives an exception *)

Definition M (A : Type) : Type := world -> (exn + A) * world.

Definition ret {A} (a : A) : M A := fun w => (inr a, w).
Definition raise {A} (e : exn) : M A := fun w => (inl e, w).
Definition bind {A B} (m : M A) (k : A -> M B) : M B :=
  fun w => match m w with
           | (inr a, w') => k a w'
           | (inl e, w') => (inl e, w')
           end.
Definition modify (f : world -> world) : M unit := fun w => (inr tt, f w).
Definition gets {A} (f : world -> A) : M A := fun w => (inr (f w), w).
Definition lift {A} (r : exn + A) : M A := fun w => (r, w).

Notation "x <- m ;; k" := (bind m (fun x => k))
  (at level 100, m at next level, right associativity, only parsing).
Notation "m ;;; k" := (bind m (fun _ => k))
  (at level 100, right associativity, only parsing).

Definition when_ (b : bool) (m : M unit) : M unit := if b then m else ret tt.

(** ** The command formatter *)

Definition is_digit (c : ascii) : bool :=
  let n := nat_of_ascii c in (48 <=? n)%nat && (n <=? 57)%nat.

Fixpoint index_of_digits (acc : nat) (s : string) : option nat :=
  match s with
  | "" => Some acc
  | String c r =>
      if is_digit c then index_of_digits (10 * acc + (nat_of_ascii c - 48)) r
      else None
  end.

(** [repr(v)], as it appears in the message of a [KeyError]. *)
Definition py_repr (P : platform) (v : pyval) : string :=
  match v with
  | PyStr s => "'" +:+ s +:+ "'"
  | _ => py_str P v
  end.

(** Modelled from the spec: the lookup step of [snakemake.utils.format],
    whose source is not part of [src/].  A placeholder that is a number is an
    index into the positional arguments, any other a key of the bindings
    (section 4.1: "substituting named/positional placeholders"). *)
Definition lookup_field (P : platform) (args : list pyval)
    (variables : gmap string pyval) (name : string) : exn + string :=
  match name, index_of_digits 0 name with
  | String _ _, Some i =>
      match args !! i with
      | Some v => inr (py_str P v)
      | None => inl (IndexError "Replacement index out of range")
      end
  | _, _ =>
      match variables !! name with
      | Some v => inr (py_str P v)
      | None => inl (KeyError (py_repr P (PyStr name)))
      end
  end.

(** Modelled from the spec: the scan [snakemake.utils.format] makes of a
    pattern, whose source is not part of [src/].  [field] holds the name read
    so far while inside a placeholder; text outside placeholders is copied. *)
Fixpoint render (P : platform) (args : list pyval) (variables : gmap string pyval)
    (field : option string) (s : string) : exn + string :=
  match s with
  | "" =>
      match field with
      | None => inr ""
      | Some _ => inl (ValueError "expected '}' before end of string")
      end
  | String c r =>
      match field with
      | None =>
          if Ascii.eqb c "{" then render P args variables (Some "") r
          else if Ascii.eqb c "}" then inl (ValueError "Single '}' encountered in format string")
          else match render P args variables None r with
               | inr t => inr (String c t)
               | inl e => inl e
               end
      | Some name =>
          if Ascii.eqb c "}" then
            match lookup_field P args variables name with
            | inr v => match render P args variables None r with
                       | inr t => inr (v +:+ t)
                       | inl e => inl e
                       end
            | inl e => inl e
            end
          else if Ascii.eqb c "{" then inl (ValueError "unexpected '{' in field name")
          else render P args variables (Some (name +:+ String c "")) r
      end
  end.

(** Modelled from the spec: how [snakemake.utils.format], whose source is
    not part of [src/], finds the frame of its implicit bindings.  Section
    4.1 says that [stepout] is "used internally to locate the correct caller
    frame for implicit binding capture": [callers] are the frames of the
    running calls, from the one that calls [format] outwards, and [stepout]
    counts them from 1; the count stops at the outermost frame. *)
Fixpoint frame_locals (callers : list (gmap string pyval)) (stepout : nat)
    : gmap string pyval :=
  match callers with
  | [] => ∅
  | f :: outer =>
      match stepout, outer with
      | S (S n), _ :: _ => frame_locals outer (S n)
      | _, _ => f
      end
  end.

(** Modelled from the spec: [snakemake.utils.format] is imported on line 14
    and its source is not part of [src/].  Section 4.1 of the specification
    gives its contract: given a template, positional arguments and a binding
    context (the locals of the frame [stepout] locates, merged with the
    keyword arguments, which take precedence), it substitutes the named and
    positional placeholders.  A placeholder is a name between braces; the
    specification names no escape for a brace. *)
Definition format (P : platform) (callers : list (gmap string pyval))
    (pattern : string) (args : list pyval) (stepout : nat)
    (kwargs : gmap string pyval) : exn + string :=
  render P args (kwargs ∪ frame_locals callers stepout) None pattern.


(** ** Name resolution *)

(** The names the module body binds (lines 1-30) and the builtins it uses.
    [WorkflowError], raised on line 53, is among neither: no import binds
    it. *)
Definition module_globals : list string :=
  ["__author__"; "__copyright__"; "__email__"; "__license__";
   "_io"; "sys"; "os"; "sp"; "inspect"; "shutil"; "threading";
   "format"; "logger"; "singularity"; "Conda"; "snakemake";
   "STDOUT"; "shell"].

Definition builtins : list string := ["KeyError"; "isinstance"].

(** Loading a global name: a [NameError] when neither the module nor the
    builtins bind it. *)
Definition load_global (name : string) : M unit :=
  if bool_decide (name ∈ (module_globals ++ builtins)%list) then ret tt
  else raise (NameError name).

(** [raise Name(...)]: the class is looked up before the exception is
    built. *)
Definition raise_named {A} (name : string) (e : exn) : M A :=
  load_global name ;;; raise e.

(** ** Global shell configuration (lines 37-68) *)

(** [shell.get_executable] (lines 37-39) *)
Definition get_executable : M (option string) :=
  gets (fun w => _process_args w !! "executable").

(** [os.path.split(cmd)[-1]] *)
Definition os_path_split_tail (P : platform) (cmd : string) : string :=
  if os_name_posix P then posix_split_tail cmd else ntpath_split_tail P cmd.

Definition fail_fast : string := "set -euo pipefail; ".

(** [shell.executable] (lines 47-60).  After line 51 [cmd] is the result of
    [shutil.which], which is [None] or a path; [not cmd] holds for [None] and
    for the empty string. *)
Definition executable (P : platform) (cmd : string) : M unit :=
  cmd <- (if os_name_posix P && negb (posix_isabs cmd) then
            match shutil_which P cmd with
            | Some (String c r) => ret (String c r)
            | Some "" =>
                raise_named "WorkflowError"
                  (WorkflowError ("Cannot set default shell " +:+ "" +:+
                     " because it is not available in your PATH."))
            | None =>
                raise_named "WorkflowError"
                  (WorkflowError ("Cannot set default shell " +:+ "None" +:+
                     " because it is not available in your PATH."))
            end
          else ret cmd) ;;
  when_ (String.eqb (os_path_split_tail P cmd) "bash")
    (prefix <- gets _process_prefix ;;
     modify (set_process_prefix (prefix +:+ fail_fast))) ;;;
  modify (set_process_args <["executable" := cmd]>).

(** [shell.prefix] (lines 62-64) *)
Definition prefix (p : string) : M unit := modify (set_process_prefix p).

(** [shell.suffix] (lines 66-68) *)
Definition suffix (s : string) : M unit := modify (set_process_suffix s).

(** ** The process registry (lines 70-80) *)

(** [Popen.kill]: the signal is sent; what it does to the child is the
    operating system's business. *)
Definition proc_kill (pid : nat) : M unit := modify (emit (EvKill pid)).

(** [shell.kill] (lines 70-75) *)
Definition kill (jobid : pyval) : M unit :=
  reg <- gets _processes ;;
  match reg !! dict_key jobid with
  | Some proc =>
      proc_kill proc ;;;
      modify (set_processes (delete (dict_key jobid)))
  | None => ret tt
  end.

(** [shell.cleanup] (lines 77-80) *)
Definition cleanup : M unit := modify (set_processes (fun _ => ∅)).

(** ** Child processes *)

(** The module constant [STDOUT] (lines 23-27). *)
Definition STDOUT (P : platform) : stdout_disp :=
  if sys_stdout_is_text P then SysStdout else NoStdout.

Definition set_unread (ls : list string) (p : process) : process :=
  {| p_args := p_args p; p_unread := ls; p_returncode := p_returncode p;
     p_reaped := p_reaped p |}.

Definition set_reaped (p : process) : process :=
  {| p_args := p_args p; p_unread := p_unread p; p_returncode := p_returncode p;
     p_reaped := true |}.

(** [sp.Popen(...)]: the operating system either refuses or starts a child,
    whose handle is its index in the table. *)
Definition Popen (P : platform) (a : popen_args) : M nat :=
  match os_popen P a with
  | inl e => raise e
  | inr o =>
      fun w =>
        let pid := length (children w) in
        let p := {| p_args := a;
                    p_unread := match pa_stdout a with
                                | PIPE => split_keepends (out_text o)
                                | _ => []
                                end;
                    p_returncode := out_returncode o;
                    p_reaped := false |} in
        (inr pid, emit (EvPopen pid a) (set_children (fun cs => (cs ++ [p])%list) w))
  end.

Definition bad_handle {A} : M A := raise (ValueError "no such child process").

(** [proc.stdout.read()]: all that is left of the stream.  Without a pipe
    [proc.stdout] is [None]. *)
Definition proc_stdout_read (pid : nat) : M string :=
  cs <- gets children ;;
  match cs !! pid with
  | None => bad_handle
  | Some p =>
      match pa_stdout (p_args p) with
      | PIPE =>
          modify (emit (EvRead pid)) ;;;
          modify (set_children (alter (set_unread []) pid)) ;;;
          ret (String.concat "" (p_unread p))
      | _ => raise (ValueError "'NoneType' object has no attribute 'read'")
      end
  end.

(** One step of [for l in proc.stdout]: the next line, or [None] at the end
    of the stream. *)
Definition proc_stdout_readline (pid : nat) : M (option string) :=
  cs <- gets children ;;
  match cs !! pid with
  | None => bad_handle
  | Some p =>
      match pa_stdout (p_args p) with
      | PIPE =>
          match p_unread p with
          | [] => ret None
          | l :: ls =>
              modify (set_children (alter (set_unread ls) pid)) ;;;
              ret (Some l)
          end
      | _ => raise (ValueError "'NoneType' object is not iterable")
      end
  end.

(** [proc.wait()] *)
Definition proc_wait (pid : nat) : M Z :=
  cs <- gets children ;;
  match cs !! pid with
  | None => bad_handle
  | Some p =>
      modify (emit (EvWait pid)) ;;;
      modify (set_children (alter set_reaped pid)) ;;;
      ret (p_returncode p)
  end.

(** ** Streaming: [shell.iter_stdout] (lines 166-172) *)

(** The generator object: the arguments its frame holds and whether its body
    has run to the end. *)
Record generator := { g_proc : nat; g_cmd : string; g_finished : bool }.

(** Calling the generator function runs none of its body. *)
Definition iter_stdout (proc : nat) (cmd : string) : generator :=
  {| g_proc := proc; g_cmd := cmd; g_finished := false |}.

Definition finish (g : generator) : generator :=
  {| g_proc := g_proc g; g_cmd := g_cmd g; g_finished := true |}.

(** [next(g)]: [Some l] for [yield l], [None] for [StopIteration]. *)
Definition iter_stdout_next (g : generator) : M (option string * generator) :=
  if g_finished g then ret (None, g)
  else
    l <- proc_stdout_readline (g_proc g) ;;
    match l with
    | Some l => ret (Some (drop_last l), g)
    | None =>
        retcode <- proc_wait (g_proc g) ;;
        if (retcode =? 0)%Z then ret (None, finish g)
        else raise (CalledProcessError retcode (g_cmd g))
    end.

(** How a consumer's loop over the generator ends. *)
Inductive ending := Exhausted | Raised (e : exn) | Unfinished.

(** [for x in g: items.append(x)], for at most [n] calls of [next]. *)
Fixpoint consume (n : nat) (g : generator) (w : world) : list string * ending * world :=
  match n with
  | 0 => ([], Unfinished, w)
  | S n' =>
      match iter_stdout_next g w with
      | (inl e, w') => ([], Raised e, w')
      | (inr (None, _), w') => ([], Exhausted, w')
      | (inr (Some l, g'), w') =>
          let '(ls, e, w'') := consume n' g' w' in (l :: ls, e, w'')
      end
  end.

(** The lines the child of [g] has not delivered yet. *)
Definition pending (g : generator) (w : world) : list string :=
  match children w !! g_proc g with
  | Some p => p_unread p
  | None => []
  end.

(** The loop run to its end: one call of [next] per pending line and one
    more to leave the loop. *)
Definition consume_all (g : generator) (w : world) : list string * ending * world :=
  consume (S (length (pending g w))) g w.

(** ** The frames of a call *)

(** [context.get(key)] and [context.get(key, default)] *)
Definition ctx_get (context : gmap string pyval) (key : string) (dflt : pyval) : pyval :=
  default dflt (context !! key).

(** The frame of the lambda of line 87 while it runs, as [f_locals] shows
    it: its parameter and the two variables it closes over. *)
Definition lambda_frame (to_fmt : string) : gmap string pyval :=
  {[ "to_fmt" := PyStr to_fmt;
     "args" := PyInternal "args";
     "kwargs" := PyInternal "kwargs" ]}.

(** The value line 93 binds to [stdout]: [sp.PIPE], which is -1, or the
    module constant [STDOUT]. *)
Definition stdout_value (P : platform) (iterable read : bool) : pyval :=
  if iterable || read then PyInt (-1)
  else if sys_stdout_is_text P then PyInternal "sys.stdout" else PyNone.

(** The frame of [shell.__new__] when line 99 runs: the parameters (line 83)
    and the variables lines 87-97 have bound.  [context] is the dictionary of
    lines 89-91. *)
Definition new_frame_99 (P : platform) (cmd : string) (iterable read : bool)
    (bench_record : option nat) (context : gmap string pyval) : gmap string pyval :=
  {[ "cls" := PyInternal "cls";
     "cmd" := PyStr cmd;
     "args" := PyInternal "args";
     "iterable" := PyBool iterable;
     "read" := PyBool read;
     "bench_record" := match bench_record with Some b => PyObj b | None => PyNone end;
     "kwargs" := PyInternal "kwargs";
     "fmt" := PyInternal "fmt";
     "context" := PyInternal "context";
     "stdout" := stdout_value P iterable read;
     "close_fds" := PyBool (negb (sys_platform_win32 P));
     "jobid" := ctx_get context "jobid" PyNone ]}.

(** The frame of [shell.__new__] when lines 107-109 run: lines 101-105 have
    bound five more variables, and [cmd] is still the template. *)
Definition new_frame_107 (P : platform) (cmd : string) (iterable read : bool)
    (bench_record : option nat) (context : gmap string pyval) : gmap string pyval :=
  <["env_prefix" := PyStr ""]>
  (<["conda_env" := ctx_get context "conda_env" PyNone]>
  (<["container_img" := ctx_get context "container_img" PyNone]>
  (<["env_modules" := ctx_get context "env_modules" PyNone]>
  (<["shadow_dir" := ctx_get context "shadow_dir" PyNone]>
  (new_frame_99 P cmd iterable read bench_record context))))).

(** ** The execution engine: [shell.__new__] (lines 82-164) *)

Inductive run_result :=
| RNone
| RBuffer (s : string)
| RLines (g : generator).

(** The lambda on line 87, called from [shell.__new__] with the frames
    [callers] running (that of [shell.__new__] first, then that of its
    caller): the call of [format] sits in the lambda's own frame and hands
    on the positional arguments, [stepout=2] and the keyword arguments; the
    result is stripped. *)
Definition fmt (P : platform) (args : list pyval) (kwargs : gmap string pyval)
    (callers : list (gmap string pyval)) (to_fmt : string) : exn + string :=
  match format P (lambda_frame to_fmt :: callers) to_fmt args 2 kwargs with
  | inr s => inr (strip s)
  | inl e => inl e
  end.

(** Lines 107-109 *)
Definition base_command (P : platform) (args : list pyval) (kwargs : gmap string pyval)
    (callers : list (gmap string pyval)) (cmd : string) : M string :=
  process_prefix <- gets _process_prefix ;;
  p <- lift (fmt P args kwargs callers process_prefix) ;;
  c <- lift (fmt P args kwargs callers cmd) ;;
  process_suffix <- gets _process_suffix ;;
  s <- lift (fmt P args kwargs callers process_suffix) ;;
  ret (p +:+ " " +:+ c +:+ " " +:+ s).

(** Lines 102-105 and 111-129 *)
Definition activation_chain (P : platform) (context : gmap string pyval) (cmd : string) : M string :=
  let conda_env := ctx_get context "conda_env" PyNone in
  let container_img := ctx_get context "container_img" PyNone in
  let env_modules := ctx_get context "env_modules" PyNone in
  let shadow_dir := ctx_get context "shadow_dir" PyNone in
  cmd <- (if truthy env_modules then
            modify (emit (EvModules env_modules cmd)) ;;;
            modify (emit (EvInfo ("Activating environment modules: " +:+ py_str P env_modules))) ;;;
            ret (env_modules_shellcmd P env_modules cmd)
          else ret cmd) ;;
  cmd <- (if truthy conda_env then
            modify (emit (EvConda container_img conda_env cmd)) ;;;
            ret (conda_shellcmd P container_img conda_env cmd)
          else ret cmd) ;;
  cmd <- (if truthy container_img then
            let args := ctx_get context "singularity_args" (PyStr "") in
            process_args <- gets _process_args ;;
            match process_args !! "executable" with
            | None => raise_named "KeyError" (KeyError "'executable'")
            | Some shell_executable =>
                modify (emit (EvSingularity container_img cmd args shell_executable shadow_dir)) ;;;
                modify (emit (EvInfo ("Activating singularity image " +:+ py_str P container_img))) ;;;
                ret (singularity_shellcmd P container_img cmd args shell_executable shadow_dir)
            end
          else ret cmd) ;;
  when_ (truthy conda_env)
    (modify (emit (EvInfo ("Activating conda environment: " +:+ py_str P conda_env)))) ;;;
  ret cmd.

(** Lines 85-129: from the template to the text handed to [Popen].  The
    context is the caller's locals updated with the keyword arguments
    (lines 89-91); the formatter is called with the frame of
    [shell.__new__] and that of its caller running. *)
Definition final_command (P : platform) (cmd : string) (args : list pyval)
    (locals kwargs : gmap string pyval)
    (iterable read : bool) (bench_record : option nat) : M string :=
  match kwargs !! "stepout" with
  | Some _ => raise_named "KeyError" (KeyError "Argument stepout is not allowed in shell command.")
  | None => ret tt
  end ;;;
  let context := kwargs ∪ locals in
  when_ (negb (truthy (ctx_get context "is_shell" PyNone)))
    (c <- lift (fmt P args kwargs
                  [new_frame_99 P cmd iterable read bench_record context; locals] cmd) ;;
     modify (emit (EvShellcmd c))) ;;;
  cmd <- base_command P args kwargs
           [new_frame_107 P cmd iterable read bench_record context; locals] cmd ;;
  activation_chain P context cmd.

(** The arguments of the call on lines 131-139, with [stdout] and
    [close_fds] as lines 93 and 95 compute them. *)
Definition popen_call (P : platform) (cmd : string) (iterable read : bool)
    (process_args : gmap string string) : popen_args :=
  {| pa_cmd := cmd;
     pa_stdout := if iterable || read then PIPE else STDOUT P;
     pa_universal_newlines := iterable;
     pa_close_fds := negb (sys_platform_win32 P);
     pa_process_args := process_args |}.

(** [del cls._processes[jobid]] *)
Definition registry_del (P : platform) (jobid : pyval) : M unit :=
  reg <- gets _processes ;;
  match reg !! dict_key jobid with
  | Some _ => modify (set_processes (delete (dict_key jobid)))
  | None => raise_named "KeyError" (KeyError (py_repr P jobid))
  end.

(** What the other threads do to the shared state while this one is blocked
    and the lock is free; an exception there is theirs, not this thread's. *)
(** What other threads do while this one is blocked: their effect on the
    world stays, their own exceptions are theirs. *)
Definition meanwhile (others : M unit) : M unit :=
  fun w => (inr tt, snd (others w)).

(** Lines 131-164: the child is started, registered under the job id of the
    context (line 97) and handled by one of the three protocols.  [others]
    is what other threads do while this one is blocked in [proc.wait()]
    (lines 154 and 156), which it enters without the lock. *)
Definition spawn_and_dispatch_among (others : M unit) (P : platform)
    (context : gmap string pyval) (cmd : string)
    (iterable read : bool) (bench_record : option nat) : M run_result :=
  let jobid := ctx_get context "jobid" PyNone in
  process_args <- gets _process_args ;;
  proc <- Popen P (popen_call P cmd iterable read process_args) ;;
  when_ (negb (bool_decide (jobid = PyNone)))
    (modify (set_processes <[dict_key jobid := proc]>)) ;;;
  if iterable then ret (RLines (iter_stdout proc cmd))
  else
    r <- (if read then s <- proc_stdout_read proc ;; ret (RBuffer s) else ret RNone) ;;
    retcode <- match bench_record with
               | Some b =>
                   modify (emit (EvBenchEnter proc b)) ;;;
                   meanwhile others ;;;
                   rc <- proc_wait proc ;;
                   modify (emit (EvBenchExit proc b)) ;;;
                   ret rc
               | None =>
                   meanwhile others ;;;
                   proc_wait proc
               end ;;
    when_ (negb (bool_decide (jobid = PyNone))) (registry_del P jobid) ;;;
    if (retcode =? 0)%Z then ret r
    else raise (CalledProcessError retcode cmd).

(** The same when no other thread runs in the meantime. *)
Definition spawn_and_dispatch (P : platform) (context : gmap string pyval) (cmd : string)
    (iterable read : bool) (bench_record : option nat) : M run_result :=
  spawn_and_dispatch_among (ret tt) P context cmd iterable read bench_record.

(** [shell.__new__] (lines 82-164) while other threads do [others] during
    the wait. *)
Definition shell_new_among (others : M unit) (P : platform) (cmd : string)
    (args : list pyval) (locals kwargs : gmap string pyval)
    (iterable read : bool) (bench_record : option nat) : M run_result :=
  cmd <- final_command P cmd args locals kwargs iterable read bench_record ;;
  spawn_and_dispatch_among others P (kwargs ∪ locals) cmd iterable read bench_record.

(** [shell.__new__] (lines 82-164) *)
Definition shell_new (P : platform) (cmd : string) (args : list pyval)
    (locals kwargs : gmap string pyval)
    (iterable read : bool) (bench_record : option nat) : M run_result :=
  cmd <- final_command P cmd args locals kwargs iterable read bench_record ;;
  spawn_and_dispatch P (kwargs ∪ locals) cmd iterable read bench_record.

(** ** Module initialisation (lines 175-191) *)

Definition falsy_path (p : option string) : bool :=
  match p with
  | Some (String _ _) => false
  | _ => true
  end.

Definition module_init (P : platform) : M unit :=
  if os_name_posix P then
    if falsy_path (shutil_which P "bash") then
      modify (emit (EvWarning ("Cannot set bash as default shell because it is not " +:+
                               "available in your PATH. Falling back to sh."))) ;;;
      if falsy_path (shutil_which P "sh") then
        modify (emit (EvWarning ("Cannot fall back to sh since it seems to be not " +:+
                                 "available on this system. Using whatever is " +:+
                                 "defined as default.")))
      else executable P "sh"
    else executable P "bash"
  else ret tt.

(** ** A concrete platform *)

Definition nl : string := String newline "".

Definition contains (pat s : string) : bool := (0 <? occurrences pat s)%nat.

Definition demo_str (v : pyval) : string :=
  match v with
  | PyStr s => s
  | PyInt z => pretty z
  | PyBool b => if b then "True" else "False"
  | PyNone => "None"
  | PyObj _ => "<object>"
  | PyInternal name => "<" +:+ name +:+ ">"
  end.

(** A POSIX system with [bash] and [sh] on the search path, whose children
    behave by what their command text contains. *)
Definition posix_demo : platform :=
  {| os_name_posix := true;
     sys_platform_win32 := false;
     sys_stdout_is_text := true;
     shutil_which := fun c =>
       if String.eqb c "bash" then Some "/usr/bin/bash"
       else if String.eqb c "sh" then Some "/bin/sh" else None;
     ntpath_split_tail := posix_split_tail;
     os_popen := fun a =>
       if contains "no-such-interpreter" (pa_cmd a) then inl (OSError "No such file or directory")
       else inr {| out_text :=
                     if contains "seq 3" (pa_cmd a) then "1" +:+ nl +:+ "2" +:+ nl +:+ "3" +:+ nl
                     else if contains "printf" (pa_cmd a) then "a" +:+ nl +:+ "b"
                     else "";
                   out_returncode :=
                     if contains "exit 3" (pa_cmd a) then 3%Z else 0%Z |};
     env_modules_shellcmd := fun m c =>
       "module purge && module load " +:+ demo_str m +:+ "; " +:+ c;
     conda_shellcmd := fun _ env c =>
       "source activate " +:+ demo_str env +:+ "; " +:+ c;
     singularity_shellcmd := fun img c args exe workdir =>
       "singularity exec " +:+ demo_str args +:+ " " +:+ demo_str img +:+ " " +:+
       exe +:+ " -c '" +:+ c +:+ "'";
     obj_str := fun _ => "<object>";
     internal_str := fun name => "<" +:+ name +:+ ">" |}.

(** ** Auxiliary notions for the statements *)

(** The world after the module body has run on the concrete platform. *)
Definition booted : world := snd (module_init posix_demo world0).

(** A registry in which job 7 is live as child 0. *)
Definition one_job : world := set_processes <[PyInt 7 := 0]> world0.

(** A context naming a conda environment and a container image, with a
    shadow directory. *)
Definition conda_in_container : gmap string pyval :=
  {[ "conda_env" := PyStr "envs/a"; "container_img" := PyStr "docker://x";
     "shadow_dir" := PyStr "/tmp/shadow"; "env_modules" := PyStr "" ]}.

(** The path [executable] goes on with after lines 49-57, if any. *)
Definition resolve (P : platform) (cmd : string) : option string :=
  if os_name_posix P && negb (posix_isabs cmd) then
    match shutil_which P cmd with
    | Some (String c r) => Some (String c r)
    | _ => None
    end
  else Some cmd.

(** A selector of the context that is present and non-empty. *)
Definition selector (context : gmap string pyval) (key : string) : option pyval :=
  match context !! key with
  | Some v => if truthy v then Some v else None
  | None => None
  end.

(** The child [shell.__new__] starts for the command text [cmd]. *)
Definition started (P : platform) (cmd : string) (iterable read : bool)
    (w : world) (o : outcome) : process :=
  {| p_args := popen_call P cmd iterable read (_process_args w);
     p_unread := if iterable || read then split_keepends (out_text o) else [];
     p_returncode := out_returncode o;
     p_reaped := false |}.

Definition bench_events (pid : nat) (bench_record : option nat) : list event :=
  match bench_record with
  | Some b => [EvBenchEnter pid b; EvWait pid; EvBenchExit pid b]
  | None => [EvWait pid]
  end.

(** A child whose output has been read to the end and which has been
    reaped. *)
Definition drained (p : process) : process := set_reaped (set_unread [] p).

(** The events by which a child's output is read or the child is reaped. *)
Definition reaps (e : event) : bool :=
  match e with
  | EvRead _ | EvWait _ | EvBenchEnter _ _ | EvBenchExit _ _ => true
  | _ => false
  end.

(** The events of logging and of the activation helpers. *)
Definition is_log (e : event) : bool :=
  match e with
  | EvShellcmd _ | EvInfo _ | EvWarning _
  | EvModules _ _ | EvConda _ _ _ | EvSingularity _ _ _ _ _ => true
  | _ => false
  end.

(** [w'] differs from [w] by log events only. *)
Definition only_logged (w w' : world) : Prop :=
  exists evs,
    forallb is_log evs = true /\
    w' = {| _process_args := _process_args w; _process_prefix := _process_prefix w;
            _process_suffix := _process_suffix w; _processes := _processes w;
            children := children w; trace := (trace w ++ evs)%list |}.

Definition logs_only {A} (m : M A) : Prop := forall w, only_logged w (snd (m w)).

(** The event of a signal sent to a child. *)
Definition is_kill (e : event) : bool :=
  match e with
  | EvKill _ => true
  | _ => false
  end.

(** The concrete platform with another search path. *)
Definition with_which (which : string -> option string) (P : platform) : platform :=
  {| os_name_posix := os_name_posix P;
     sys_platform_win32 := sys_platform_win32 P;
     sys_stdout_is_text := sys_stdout_is_text P;
     shutil_which := which;
     ntpath_split_tail := ntpath_split_tail P;
     os_popen := os_popen P;
     env_modules_shellcmd := env_modules_shellcmd P;
     conda_shellcmd := conda_shellcmd P;
     singularity_shellcmd := singularity_shellcmd P;
     obj_str := obj_str P;
     internal_str := internal_str P |}.

(** The concrete platform with other children. *)
Definition with_popen (popen : popen_args -> exn + outcome) (P : platform) : platform :=
  {| os_name_posix := os_name_posix P;
     sys_platform_win32 := sys_platform_win32 P;
     sys_stdout_is_text := sys_stdout_is_text P;
     shutil_which := shutil_which P;
     ntpath_split_tail := ntpath_split_tail P;
     os_popen := popen;
     env_modules_shellcmd := env_modules_shellcmd P;
     conda_shellcmd := conda_shellcmd P;
     singularity_shellcmd := singularity_shellcmd P;
     obj_str := obj_str P;
     internal_str := internal_str P |}.

(** A POSIX system whose children print nothing and run until a signal ends
    them: [wait] reports the exit code -9 of a killed child. *)
Definition posix_sleeper : platform :=
  with_popen (fun _ => inr {| out_text := ""; out_returncode := (-9)%Z |}) posix_demo.

(** A POSIX system with [sh] but no [bash] on the search path. *)
Definition posix_sh_only : platform :=
  with_which (fun c => if String.eqb c "sh" then Some "/bin/sh" else None) posix_demo.

(** A POSIX system with neither shell on the search path. *)
Definition posix_no_shell : platform := with_which (fun _ => None) posix_demo.

Ltac run :=
  unfold bind, ret, raise, modify, gets, lift, when_, raise_named, load_global;
  cbn [fst snd].

(** * Properties *)

(** ** Strings *)

Lemma append_cons c t x : String c t +:+ x = String c (t +:+ x).
Proof. reflexivity. Qed.



Lemma occurrences_cons pat c r :
  occurrences pat (String c r) =
  ((if startswith pat (String c r) then 1 else 0) + occurrences pat r)%nat.
Proof. reflexivity. Qed.

(** The directive does not overlap a copy of itself: appended to a
    non-empty text, it cannot complete an occurrence that starts inside
    that text. *)
Lemma fail_fast_no_overlap t :
  t <> "" ->
  startswith fail_fast (t +:+ fail_fast) = startswith fail_fast t.
Proof.
  intros Ht. destruct t as [|c t]; [congruence|]. clear Ht.
  unfold fail_fast.
  do 18 (rewrite append_cons; cbn [startswith];
         match goal with |- context [Ascii.eqb ?a c] => destruct (Ascii.eqb a c) end;
         [|reflexivity];
         clear c; destruct t as [|c t]; [reflexivity|]).
  rewrite append_cons; cbn [startswith].
  match goal with |- context [Ascii.eqb ?a c] => destruct (Ascii.eqb a c) end; reflexivity.
Qed.

Lemma occurrences_app_fail_fast p :
  occurrences fail_fast (p +:+ fail_fast) = S (occurrences fail_fast p).
Proof.
  induction p as [|c r IH]; [reflexivity|].
  rewrite append_cons, !occurrences_cons, IH, <- append_cons.
  rewrite fail_fast_no_overlap by discriminate. lia.
Qed.

Lemma concat_split_keepends s : String.concat "" (split_keepends s) = s.
Proof.
  induction s as [|c r IH]; [reflexivity|].
  cbn [split_keepends]. destruct (Ascii.eqb c newline).
  - cbn [String.concat]. destruct (split_keepends r) eqn:E.
    + cbn in IH. subst r. reflexivity.
    + rewrite IH. reflexivity.
  - destruct (split_keepends r) as [|l ls] eqn:E.
    + cbn in IH. subst r. reflexivity.
    + cbn [String.concat] in *. destruct ls.
      * subst. reflexivity.
      * rewrite <- IH. reflexivity.
Qed.

Lemma ends_with_newline_cons c r :
  r <> "" -> ends_with_newline (String c r) = ends_with_newline r.
Proof. destruct r; [congruence | reflexivity]. Qed.

Lemma split_keepends_nonempty c r : split_keepends (String c r) <> [].
Proof.
  cbn [split_keepends]. destruct (Ascii.eqb c newline); [discriminate|].
  destruct (split_keepends r); discriminate.
Qed.

(** When the output ends with a newline, so does every line of it. *)
Lemma split_keepends_terminated s :
  ends_with_newline s = true ->
  Forall (fun l => ends_with_newline l = true) (split_keepends s).
Proof.
  induction s as [|c r IH]; [constructor|].
  intros H. cbn [split_keepends].
  destruct (Ascii.eqb c newline) eqn:Hc.
  - constructor; [cbn; exact Hc|].
    destruct r as [|c' r']; [constructor|].
    apply IH. rewrite ends_with_newline_cons in H by discriminate. exact H.
  - destruct r as [|c' r'].
    { cbn in H. congruence. }
    rewrite ends_with_newline_cons in H by discriminate.
    specialize (IH H).
    destruct (split_keepends (String c' r')) as [|l ls] eqn:E.
    { exfalso. exact (split_keepends_nonempty _ _ E). }
    inversion IH as [|? ? Hl Hls]; subst.
    constructor; [|exact Hls].
    destruct l; [discriminate|].
    rewrite ends_with_newline_cons by discriminate. exact Hl.
Qed.

(** ** Running the monad *)

Lemma bind_inr {A B} (m : M A) (k : A -> M B) w a w' :
  m w = (inr a, w') -> bind m k w = k a w'.
Proof. intros H. unfold bind. rewrite H. reflexivity. Qed.

Lemma bind_inl {A B} (m : M A) (k : A -> M B) w e w' :
  m w = (inl e, w') -> bind m k w = (inl e, w').
Proof. intros H. unfold bind. rewrite H. reflexivity. Qed.

(** ** The process registry *)

Lemma kill_registered jobid w proc :
  _processes w !! dict_key jobid = Some proc ->
  kill jobid w = (inr tt, set_processes (delete (dict_key jobid)) (emit (EvKill proc) w)).
Proof. intros H. unfold kill, proc_kill. run. rewrite H. reflexivity. Qed.

Lemma kill_unregistered jobid w :
  _processes w !! dict_key jobid = None -> kill jobid w = (inr tt, w).
Proof. intros H. unfold kill. run. rewrite H. reflexivity. Qed.

(** C4. [kill(jobid)] never raises.  When the registry holds a handle for
    the job, the handle is sent the signal and the entry, and only that
    entry, is removed; when it holds none, nothing at all happens.  The
    entry of a job is the one under its id as a dictionary key. *)
Theorem kill_signals_and_deregisters (jobid : pyval) (w : world) :
  (forall proc, _processes w !! dict_key jobid = Some proc ->
     kill jobid w =
       (inr tt, set_processes (delete (dict_key jobid)) (emit (EvKill proc) w))
     /\ trace (snd (kill jobid w)) = (trace w ++ [EvKill proc])%list
     /\ _processes (snd (kill jobid w)) = delete (dict_key jobid) (_processes w)
     /\ _processes (snd (kill jobid w)) !! dict_key jobid = None)
  /\ (_processes w !! dict_key jobid = None -> kill jobid w = (inr tt, w)).
Proof.
  split.
  - intros proc H. rewrite (kill_registered _ _ _ H). cbn.
    repeat split. apply lookup_delete_eq.
  - apply kill_unregistered.
Qed.

Lemma kill_signals_and_deregisters_witness :
  (kill (PyInt 7) one_job = (inr tt, set_processes (delete (PyInt 7)) (emit (EvKill 0) one_job))
   /\ trace (snd (kill (PyInt 7) one_job)) = [EvKill 0]
   /\ _processes (snd (kill (PyInt 7) one_job)) = delete (PyInt 7) (_processes one_job)
   /\ _processes (snd (kill (PyInt 7) one_job)) !! PyInt 7 = None)
  /\ kill (PyInt 8) one_job = (inr tt, one_job).
Proof.
  split.
  - apply (proj1 (kill_signals_and_deregisters (PyInt 7) one_job) 0). reflexivity.
  - apply (proj2 (kill_signals_and_deregisters (PyInt 8) one_job)). reflexivity.
Defined.

(** X7. A second [kill] of the same job finds no entry: it returns normally,
    sends no signal and changes nothing. *)
Lemma kill_idempotent jobid w :
  kill jobid (snd (kill jobid w)) = (inr tt, snd (kill jobid w)).
Proof.
  apply kill_unregistered.
  destruct (_processes w !! dict_key jobid) as [proc|] eqn:H.
  - rewrite (kill_registered _ _ _ H). apply lookup_delete_eq.
  - rewrite (kill_unregistered _ _ H). exact H.
Qed.

(** [cleanup] empties the registry and signals no one. *)
Lemma cleanup_spec w :
  cleanup w = (inr tt, set_processes (fun _ => ∅) w)
  /\ trace (snd (cleanup w)) = trace w.
Proof. split; reflexivity. Qed.

(** ** Global shell configuration *)

Section Configuration.

Context (P : platform).

Lemma executable_unresolved cmd w :
  resolve P cmd = None ->
  executable P cmd w = (inl (NameError "WorkflowError"), w).
Proof.
  unfold resolve, executable. intros H.
  destruct (os_name_posix P && negb (posix_isabs cmd)); [|discriminate].
  destruct (shutil_which P cmd) as [[|c r]|]; try discriminate; reflexivity.
Qed.

Lemma executable_resolved cmd w exe :
  resolve P cmd = Some exe ->
  executable P cmd w =
    (inr tt,
     set_process_args <["executable" := exe]>
       (if String.eqb (os_path_split_tail P exe) "bash"
        then set_process_prefix (_process_prefix w +:+ fail_fast) w else w)).
Proof.
  unfold resolve, executable. intros H.
  assert (E : forall (k : string -> M unit),
    bind (if os_name_posix P && negb (posix_isabs cmd)
          then match shutil_which P cmd with
               | Some (String c r) => ret (String c r)
               | Some "" =>
                   raise_named "WorkflowError"
                     (WorkflowError ("Cannot set default shell " +:+ "" +:+
                        " because it is not available in your PATH."))
               | None =>
                   raise_named "WorkflowError"
                     (WorkflowError ("Cannot set default shell " +:+ "None" +:+
                        " because it is not available in your PATH."))
               end
          else ret cmd) k w = k exe w).
  { intros k.
    destruct (os_name_posix P && negb (posix_isabs cmd)).
    - destruct (shutil_which P cmd) as [[|c r]|]; try discriminate.
      injection H as <-. reflexivity.
    - injection H as <-. reflexivity. }
  rewrite E. run.
  destruct (String.eqb (os_path_split_tail P exe) "bash"); reflexivity.
Qed.

(** X6. On a POSIX system a relative name that the search path resolves is
    stored as the path [shutil.which] returned, and the call succeeds. *)
Lemma executable_stores_resolved_path cmd w exe :
  os_name_posix P = true -> posix_isabs cmd = false ->
  shutil_which P cmd = Some exe -> exe <> "" ->
  fst (executable P cmd w) = inr tt
  /\ _process_args (snd (executable P cmd w)) !! "executable" = Some exe.
Proof.
  intros Hp Ha Hw Hne.
  assert (R : resolve P cmd = Some exe).
  { unfold resolve. rewrite Hp, Ha, Hw. destruct exe; [congruence | reflexivity]. }
  rewrite (executable_resolved _ _ _ R). cbn. split; [reflexivity|].
  destruct (String.eqb _ _); cbn; apply lookup_insert_eq.
Qed.

(** C2 (as amended). When [shell.executable] succeeds and the path it stores
    has the basename [bash], the new prefix is the prior prefix followed by
    the directive, so the directive occurs once more than before. *)
Theorem executable_bash_appends_fail_fast (cmd : string)
    (w w' : world) (exe : string) :
  executable P cmd w = (inr tt, w') ->
  _process_args w' !! "executable" = Some exe ->
  os_path_split_tail P exe = "bash" ->
  _process_prefix w' = _process_prefix w +:+ fail_fast
  /\ occurrences fail_fast (_process_prefix w') = S (occurrences fail_fast (_process_prefix w)).
Proof.
  intros Hrun Hexe Htail.
  destruct (resolve P cmd) as [exe0|] eqn:R.
  - rewrite (executable_resolved _ _ _ R) in Hrun.
    injection Hrun as <-.
    assert (exe0 = exe) as ->.
    { cbn in Hexe. rewrite lookup_insert_eq in Hexe. congruence. }
    rewrite Htail. cbn. split; [reflexivity|]. apply occurrences_app_fail_fast.
  - rewrite (executable_unresolved _ _ R) in Hrun. discriminate.
Qed.

End Configuration.

Lemma executable_bash_appends_fail_fast_witness :
  _process_prefix (snd (executable posix_demo "bash" (set_process_prefix "umask 022; " world0)))
    = "umask 022; " +:+ fail_fast
  /\ occurrences fail_fast
       (_process_prefix (snd (executable posix_demo "bash" (set_process_prefix "umask 022; " world0))))
     = S (occurrences fail_fast "umask 022; ").
Proof.
  apply (executable_bash_appends_fail_fast posix_demo "bash"
           (set_process_prefix "umask 022; " world0) _ "/usr/bin/bash");
    reflexivity.
Defined.

(** C2 (as stated) fails.  Two calls with bash-named absolute paths, each of
    which succeeds, leave the directive twice in the prefix; and a call made
    with a non-empty prefix puts the directive after it, not before. *)
Lemma executable_bash_twice_counterexample :
  posix_split_tail "/usr/bin/bash" = "bash"
  /\ posix_split_tail "/bin/bash" = "bash"
  /\ fst (executable posix_demo "/usr/bin/bash" world0) = inr tt
  /\ fst (executable posix_demo "/bin/bash" (snd (executable posix_demo "/usr/bin/bash" world0))) = inr tt
  /\ occurrences fail_fast
       (_process_prefix
          (snd (executable posix_demo "/bin/bash"
                  (snd (executable posix_demo "/usr/bin/bash" world0))))) <> 1
  /\ _process_prefix (snd (executable posix_demo "/bin/bash" (set_process_prefix "umask 022; " world0)))
     <> fail_fast +:+ "umask 022; ".
Proof. repeat split; vm_compute; discriminate. Qed.

(** C5. On the POSIX platform, [shell.executable("zsh")] with [zsh] absent
    from the search path reaches line 53, where the name [WorkflowError] is
    bound by no import: the call ends in a [NameError], not in the
    [WorkflowError] the line means to raise. *)
Theorem executable_unresolved_raises_NameError :
  os_name_posix posix_demo = true
  /\ posix_isabs "zsh" = false
  /\ shutil_which posix_demo "zsh" = None
  /\ executable posix_demo "zsh" world0 = (inl (NameError "WorkflowError"), world0)
  /\ forall msg, fst (executable posix_demo "zsh" world0) <> inl (WorkflowError msg).
Proof.
  repeat split. intros msg. rewrite executable_unresolved by reflexivity.
  cbn. discriminate.
Qed.

(** ** The command formatter *)

Section Formatter.

Context (P : platform) (args : list pyval) (kwargs : gmap string pyval).







Lemma base_command_eq callers cmd w p c s :
  fmt P args kwargs callers (_process_prefix w) = inr p ->
  fmt P args kwargs callers cmd = inr c ->
  fmt P args kwargs callers (_process_suffix w) = inr s ->
  base_command P args kwargs callers cmd w = (inr (p +:+ " " +:+ c +:+ " " +:+ s), w).
Proof.
  intros Hp Hc Hs. unfold base_command. run. rewrite Hp, Hc, Hs. reflexivity.
Qed.


End Formatter.


(** C7. A rule calls [shell("echo {y}")] with [y = 7] among its local
    variables and no keyword argument.  With the caller's locals as bindings,
    as the specification has it, the template formats to [echo 7].  In the
    code the call of [format] sits in the lambda of line 87, so [stepout=2] reaches
    the frame of [shell.__new__] and not that of its caller: [y] is unknown,
    the call fails on line 99 before anything is started, while a placeholder
    such as [read] renders a parameter of [shell.__new__]. *)
Theorem formatter_misses_caller_locals :
  format posix_demo [ {[ "y" := PyInt 7 ]} ] "echo {y}" [] 1 ∅ = inr "echo 7"
  /\ format posix_demo
       [lambda_frame "echo {y}";
        new_frame_99 posix_demo "echo {y}" false false None {[ "y" := PyInt 7 ]};
        {[ "y" := PyInt 7 ]}] "echo {y}" [] 3 ∅ = inr "echo 7"
  /\ fmt posix_demo [] ∅
       [new_frame_99 posix_demo "echo {y}" false false None {[ "y" := PyInt 7 ]};
        {[ "y" := PyInt 7 ]}] "echo {y}" = inl (KeyError "'y'")
  /\ shell_new posix_demo "echo {y}" [] {[ "y" := PyInt 7 ]} ∅ false false None booted
     = (inl (KeyError "'y'"), booted)
  /\ fst (final_command posix_demo "echo {read}" [] {[ "y" := PyInt 7 ]} ∅
            false false None booted)
     = inr "set -euo pipefail; echo False ".
Proof. vm_compute. repeat split. Qed.

(** ** Child processes *)

Lemma lookup_snoc {A} (l : list A) (x : A) : (l ++ [x])%list !! length l = Some x.
Proof. rewrite lookup_app_r by lia. rewrite Nat.sub_diag. reflexivity. Qed.

Lemma alter_snoc {A} (f : A -> A) (l : list A) (x : A) :
  alter f (length l) (l ++ [x])%list = (l ++ [f x])%list.
Proof.
  induction l as [|y l IH]; [reflexivity|].
  cbn. f_equal. exact IH.
Qed.

Lemma proc_stdout_read_eq pid p w :
  children w !! pid = Some p ->
  pa_stdout (p_args p) = PIPE ->
  proc_stdout_read pid w =
    (inr (String.concat "" (p_unread p)),
     set_children (alter (set_unread []) pid) (emit (EvRead pid) w)).
Proof. intros H Hp. unfold proc_stdout_read. run. rewrite H, Hp. reflexivity. Qed.

Lemma proc_wait_eq pid p w :
  children w !! pid = Some p ->
  proc_wait pid w =
    (inr (p_returncode p),
     set_children (alter set_reaped pid) (emit (EvWait pid) w)).
Proof. intros H. unfold proc_wait. run. rewrite H. reflexivity. Qed.

Lemma proc_stdout_readline_eq pid p w :
  children w !! pid = Some p ->
  pa_stdout (p_args p) = PIPE ->
  proc_stdout_readline pid w =
    match p_unread p with
    | [] => (inr None, w)
    | l :: ls => (inr (Some l), set_children (alter (set_unread ls) pid) w)
    end.
Proof.
  intros H Hp. unfold proc_stdout_readline. run. rewrite H, Hp.
  destruct (p_unread p); reflexivity.
Qed.

(** ** The generator *)

Lemma consume_drains ls : forall n g w p,
  g_finished g = false ->
  children w !! g_proc g = Some p ->
  pa_stdout (p_args p) = PIPE ->
  p_unread p = ls ->
  length ls < n ->
  consume n g w =
    (map drop_last ls,
     (if (p_returncode p =? 0)%Z then Exhausted
      else Raised (CalledProcessError (p_returncode p) (g_cmd g))),
     set_children (alter drained (g_proc g)) (emit (EvWait (g_proc g)) w)).
Proof.
  induction ls as [|l ls IH]; intros n g w p Hf Hc Hp Hu Hn.
  - destruct n as [|n]; [cbn in Hn; lia|].
    cbn [consume]. unfold iter_stdout_next. rewrite Hf.
    pose proof (proc_stdout_readline_eq _ _ _ Hc Hp) as Hr. rewrite Hu in Hr.
    rewrite (bind_inr _ _ _ _ _ Hr).
    rewrite (bind_inr _ _ _ _ _ (proc_wait_eq _ _ _ Hc)).
    assert (E : set_children (alter set_reaped (g_proc g)) (emit (EvWait (g_proc g)) w)
                = set_children (alter drained (g_proc g)) (emit (EvWait (g_proc g)) w)).
    { unfold set_children, emit. cbn. f_equal.
      apply list_alter_ext; [|reflexivity].
      intros x Hx. rewrite Hc in Hx. injection Hx as <-.
      unfold drained, set_reaped, set_unread. cbn. rewrite Hu. reflexivity. }
    rewrite E. destruct (p_returncode p =? 0)%Z; reflexivity.
  - destruct n as [|n]; [cbn in Hn; lia|].
    cbn [consume]. unfold iter_stdout_next. rewrite Hf.
    pose proof (proc_stdout_readline_eq _ _ _ Hc Hp) as Hr. rewrite Hu in Hr.
    rewrite (bind_inr _ _ _ _ _ Hr). unfold ret.
    rewrite (IH n g _ (set_unread ls p)); [| exact Hf | | exact Hp | reflexivity | cbn in Hn; lia].
    + cbn [map p_returncode set_unread]. f_equal.
      unfold set_children, emit. cbn. f_equal.
      rewrite list_alter_alter_eq. apply list_alter_ext; reflexivity.
    + cbn. rewrite list_lookup_alter_eq, Hc. reflexivity.
Qed.

Lemma consume_all_drains g w p :
  g_finished g = false ->
  children w !! g_proc g = Some p ->
  pa_stdout (p_args p) = PIPE ->
  consume_all g w =
    (map drop_last (p_unread p),
     (if (p_returncode p =? 0)%Z then Exhausted
      else Raised (CalledProcessError (p_returncode p) (g_cmd g))),
     set_children (alter drained (g_proc g)) (emit (EvWait (g_proc g)) w)).
Proof.
  intros Hf Hc Hp. unfold consume_all, pending. rewrite Hc.
  apply (consume_drains (p_unread p)); auto.
Qed.

(** ** Building the command touches nothing but the trace *)

Lemma only_logged_refl w : only_logged w w.
Proof. exists []. split; [reflexivity|]. rewrite app_nil_r. destruct w; reflexivity. Qed.

Lemma only_logged_trans w1 w2 w3 :
  only_logged w1 w2 -> only_logged w2 w3 -> only_logged w1 w3.
Proof.
  intros (e1 & H1 & ->) (e2 & H2 & ->). exists (e1 ++ e2)%list. split.
  - rewrite forallb_app, H1, H2. reflexivity.
  - cbn. rewrite app_assoc. reflexivity.
Qed.

Lemma logs_only_ret {A} (a : A) : logs_only (ret a).
Proof. intros w. apply only_logged_refl. Qed.

Lemma logs_only_raise {A} e : logs_only (@raise A e).
Proof. intros w. apply only_logged_refl. Qed.

Lemma logs_only_lift {A} (r : exn + A) : logs_only (lift r).
Proof. intros w. apply only_logged_refl. Qed.

Lemma logs_only_gets {A} (f : world -> A) : logs_only (gets f).
Proof. intros w. apply only_logged_refl. Qed.

Lemma logs_only_raise_named {A} name e : logs_only (@raise_named A name e).
Proof.
  intros w. unfold raise_named, load_global. run.
  destruct (bool_decide _); apply only_logged_refl.
Qed.

Lemma logs_only_emit e : is_log e = true -> logs_only (modify (emit e)).
Proof.
  intros H w. exists [e]. split; [cbn; rewrite H|]; reflexivity.
Qed.

Lemma logs_only_bind {A B} (m : M A) (k : A -> M B) :
  logs_only m -> (forall a, logs_only (k a)) -> logs_only (bind m k).
Proof.
  intros Hm Hk w. unfold bind. specialize (Hm w).
  destruct (m w) as [[e|a] w1]; [exact Hm|].
  eapply only_logged_trans; [exact Hm | apply Hk].
Qed.

Create HintDb logs.
#[local] Hint Resolve logs_only_ret logs_only_raise logs_only_lift logs_only_gets
  logs_only_raise_named logs_only_emit logs_only_bind : logs.

Ltac logs_only :=
  repeat first
    [ solve [auto with logs]
    | apply logs_only_bind; [|intros ?]
    | match goal with
      | |- logs_only (if ?b then _ else _) => destruct b
      | |- logs_only (when_ ?b _) => unfold when_; destruct b
      | |- logs_only (match ?x with _ => _ end) => destruct x
      end ].

Lemma is_log_not_reaps evs :
  forallb is_log evs = true -> forallb (fun e => negb (reaps e)) evs = true.
Proof.
  induction evs as [|e evs IH]; [reflexivity|]. cbn.
  intros H. apply andb_prop in H as [He Hs]. rewrite (IH Hs).
  destruct e; try discriminate; reflexivity.
Qed.

Lemma selector_ctx_get context key :
  selector context key =
  if truthy (ctx_get context key PyNone) then Some (ctx_get context key PyNone) else None.
Proof.
  unfold selector, ctx_get. destruct (context !! key) as [v|]; reflexivity.
Qed.

(** ** The execution engine *)

Section Engine.

Context (P : platform).

Lemma Popen_started a o w :
  os_popen P a = inr o ->
  Popen P a w =
    (inr (length (children w)),
     emit (EvPopen (length (children w)) a)
       (set_children
          (fun cs => (cs ++ [{| p_args := a;
                               p_unread := match pa_stdout a with
                                           | PIPE => split_keepends (out_text o)
                                           | _ => []
                                           end;
                               p_returncode := out_returncode o;
                               p_reaped := false |}])%list) w)).
Proof. intros H. unfold Popen. rewrite H. reflexivity. Qed.

Lemma Popen_refused a e w :
  os_popen P a = inl e -> Popen P a w = (inl e, w).
Proof. intros H. unfold Popen. rewrite H. reflexivity. Qed.

Lemma started_unread cmd iterable read w o :
  match pa_stdout (popen_call P cmd iterable read (_process_args w)) with
  | PIPE => split_keepends (out_text o)
  | _ => []
  end = if iterable || read then split_keepends (out_text o) else [].
Proof.
  unfold popen_call, STDOUT. cbn.
  destruct (iterable || read); [reflexivity|].
  destruct (sys_stdout_is_text P); reflexivity.
Qed.

Lemma spawn_registers context cmd iterable read w o (k : nat -> M run_result) :
  os_popen P (popen_call P cmd iterable read (_process_args w)) = inr o ->
  bind (gets _process_args) (fun process_args =>
    bind (Popen P (popen_call P cmd iterable read process_args)) (fun proc =>
      bind (when_ (negb (bool_decide (ctx_get context "jobid" PyNone = PyNone)))
              (modify (set_processes <[dict_key (ctx_get context "jobid" PyNone) := proc]>)))
           (fun _ => k proc))) w
  = k (length (children w))
      {| _process_args := _process_args w;
         _process_prefix := _process_prefix w;
         _process_suffix := _process_suffix w;
         _processes :=
           if bool_decide (ctx_get context "jobid" PyNone = PyNone) then _processes w
           else <[dict_key (ctx_get context "jobid" PyNone) := length (children w)]> (_processes w);
         children := (children w ++ [started P cmd iterable read w o])%list;
         trace := (trace w ++ [EvPopen (length (children w))
                                 (popen_call P cmd iterable read (_process_args w))])%list |}.
Proof.
  intros Ho. unfold bind at 1. unfold gets at 1.
  rewrite (bind_inr _ _ _ _ _ (Popen_started _ _ _ Ho)).
  rewrite started_unread. fold (started P cmd iterable read w o).
  unfold bind, when_, modify, ret.
  destruct (bool_decide (ctx_get context "jobid" PyNone = PyNone)); reflexivity.
Qed.

Lemma spawn_and_dispatch_blocking context cmd read bench w o :
  os_popen P (popen_call P cmd false read (_process_args w)) = inr o ->
  spawn_and_dispatch P context cmd false read bench w =
    ((if (out_returncode o =? 0)%Z
      then inr (if read then RBuffer (out_text o) else RNone)
      else inl (CalledProcessError (out_returncode o) cmd)),
     {| _process_args := _process_args w;
        _process_prefix := _process_prefix w;
        _process_suffix := _process_suffix w;
        _processes :=
          if bool_decide (ctx_get context "jobid" PyNone = PyNone) then _processes w
          else delete (dict_key (ctx_get context "jobid" PyNone)) (_processes w);
        children :=
          (children w ++
           [{| p_args := popen_call P cmd false read (_process_args w);
               p_unread := [];
               p_returncode := out_returncode o;
               p_reaped := true |}])%list;
        trace :=
          (trace w ++
           [EvPopen (length (children w)) (popen_call P cmd false read (_process_args w))] ++
           (if read then [EvRead (length (children w))] else []) ++
           bench_events (length (children w)) bench)%list |}).
Proof.
  intros Ho. unfold spawn_and_dispatch, spawn_and_dispatch_among.
  rewrite (spawn_registers _ _ _ _ _ _ _ Ho).
  assert (Hl : forall x, (children w ++ [x])%list !! length (children w) = Some x) by apply lookup_snoc.
  assert (Ha : forall f x, alter f (length (children w)) (children w ++ [x])%list = (children w ++ [f x])%list) by (intros; apply alter_snoc).
  unfold started, proc_stdout_read, proc_wait, registry_del, bench_events. run.
  unfold emit, set_children, set_processes.
  destruct read, bench as [b|], (bool_decide (ctx_get context "jobid" PyNone = PyNone)) eqn:Hj;
    cbn; rewrite ?Hl; cbn; rewrite ?Ha; cbn; rewrite ?Hl; cbn; rewrite ?Ha; cbn.
  all: rewrite ?lookup_insert_eq; cbn.
  all: destruct (out_returncode o =? 0)%Z; cbn.
  all: rewrite ?concat_split_keepends, ?delete_insert_eq, <- ?app_assoc; cbn.
  all: reflexivity.
Qed.

Lemma spawn_and_dispatch_streaming context cmd read bench w o :
  os_popen P (popen_call P cmd true read (_process_args w)) = inr o ->
  spawn_and_dispatch P context cmd true read bench w =
    (inr (RLines (iter_stdout (length (children w)) cmd)),
     {| _process_args := _process_args w;
        _process_prefix := _process_prefix w;
        _process_suffix := _process_suffix w;
        _processes :=
          if bool_decide (ctx_get context "jobid" PyNone = PyNone) then _processes w
          else <[dict_key (ctx_get context "jobid" PyNone) := length (children w)]> (_processes w);
        children := (children w ++ [started P cmd true read w o])%list;
        trace := (trace w ++ [EvPopen (length (children w))
                                (popen_call P cmd true read (_process_args w))])%list |}).
Proof.
  intros Ho. unfold spawn_and_dispatch, spawn_and_dispatch_among.
  rewrite (spawn_registers _ _ _ _ _ _ _ Ho). reflexivity.
Qed.

Lemma spawn_and_dispatch_refused context cmd iterable read bench w e :
  os_popen P (popen_call P cmd iterable read (_process_args w)) = inl e ->
  spawn_and_dispatch P context cmd iterable read bench w = (inl e, w).
Proof.
  intros He. unfold spawn_and_dispatch, spawn_and_dispatch_among. unfold bind at 1. unfold gets at 1.
  rewrite (bind_inl _ _ _ _ _ (Popen_refused _ _ _ He)). reflexivity.
Qed.

Lemma base_command_logs_only args locals kwargs cmd :
  logs_only (base_command P args locals kwargs cmd).
Proof. unfold base_command. logs_only. Qed.

Lemma activation_chain_logs_only context cmd :
  logs_only (activation_chain P context cmd).
Proof. unfold activation_chain. cbv zeta. logs_only. Qed.

Lemma final_command_logs_only cmd args locals kwargs iterable read bench_record :
  logs_only (final_command P cmd args locals kwargs iterable read bench_record).
Proof.
  unfold final_command.
  apply logs_only_bind; [destruct (kwargs !! "stepout"); auto with logs|]. intros _.
  apply logs_only_bind; [logs_only|]. intros _.
  apply logs_only_bind; [apply base_command_logs_only|]. intros c.
  apply activation_chain_logs_only.
Qed.

Lemma shell_new_split cmd args locals kwargs iterable read bench_record w :
  shell_new P cmd args locals kwargs iterable read bench_record w =
  match final_command P cmd args locals kwargs iterable read bench_record w with
  | (inl e, w1) => (inl e, w1)
  | (inr text, w1) =>
      spawn_and_dispatch P (kwargs ∪ locals) text iterable read bench_record w1
  end.
Proof.
  unfold shell_new, bind.
  destruct (final_command P cmd args locals kwargs iterable read bench_record w)
    as [[e|text] w1]; reflexivity.
Qed.

Lemma final_command_frame cmd args locals kwargs iterable read bench_record w r w1 :
  final_command P cmd args locals kwargs iterable read bench_record w = (r, w1) ->
  _process_args w1 = _process_args w /\ _processes w1 = _processes w
  /\ children w1 = children w
  /\ exists evs, trace w1 = (trace w ++ evs)%list /\ forallb is_log evs = true.
Proof.
  intros H.
  pose proof (final_command_logs_only cmd args locals kwargs iterable read bench_record w) as L.
  rewrite H in L. cbn in L. destruct L as (evs & Hq & ->). cbn.
  repeat split. exists evs. split; [reflexivity | exact Hq].
Qed.

(** C3. When the keyword arguments bind [stepout], [shell(...)] raises the
    [KeyError] of line 86 and leaves the world as it found it: no child is
    started, the registry gains no entry and nothing is logged. *)
Theorem stepout_rejected_before_any_effect (cmd : string)
    (args : list pyval) (locals kwargs : gmap string pyval)
    (iterable read : bool) (bench_record : option nat) (w : world) (v : pyval) :
  kwargs !! "stepout" = Some v ->
  shell_new P cmd args locals kwargs iterable read bench_record w =
    (inl (KeyError "Argument stepout is not allowed in shell command."), w)
  /\ children (snd (shell_new P cmd args locals kwargs iterable read bench_record w)) = children w
  /\ _processes (snd (shell_new P cmd args locals kwargs iterable read bench_record w)) = _processes w
  /\ trace (snd (shell_new P cmd args locals kwargs iterable read bench_record w)) = trace w.
Proof.
  intros H.
  assert (E : shell_new P cmd args locals kwargs iterable read bench_record w =
              (inl (KeyError "Argument stepout is not allowed in shell command."), w)).
  { unfold shell_new. apply bind_inl. unfold final_command. apply bind_inl.
    rewrite H. reflexivity. }
  rewrite E. repeat split.
Qed.

(** C6. With an interpreter configured, the activation chain never fails and
    rewrites the command stage by stage: the module stage runs exactly when
    [env_modules] is present and non-empty and sees the base command; the
    conda stage runs exactly when [conda_env] is and sees what the module
    stage left; the container stage runs exactly when [container_img] is and
    sees what the conda stage left, together with the configured
    interpreter, [singularity_args] and [shadow_dir].  The trace shows the
    calls in that order, each with the command it received. *)
Theorem activation_chain_applies_stages_in_order
    (context : gmap string pyval) (cmd : string) (w : world) (exe : string) :
  _process_args w !! "executable" = Some exe ->
  let container_img := ctx_get context "container_img" PyNone in
  let shadow_dir := ctx_get context "shadow_dir" PyNone in
  let args := ctx_get context "singularity_args" (PyStr "") in
  let c1 := match selector context "env_modules" with
            | Some m => env_modules_shellcmd P m cmd
            | None => cmd
            end in
  let c2 := match selector context "conda_env" with
            | Some env => conda_shellcmd P container_img env c1
            | None => c1
            end in
  let c3 := match selector context "container_img" with
            | Some img => singularity_shellcmd P img c2 args exe shadow_dir
            | None => c2
            end in
  fst (activation_chain P context cmd w) = inr c3
  /\ trace (snd (activation_chain P context cmd w)) =
     (trace w ++
      match selector context "env_modules" with
      | Some m => [EvModules m cmd;
                   EvInfo ("Activating environment modules: " +:+ py_str P m)]
      | None => []
      end ++
      match selector context "conda_env" with
      | Some env => [EvConda container_img env c1]
      | None => []
      end ++
      match selector context "container_img" with
      | Some img => [EvSingularity img c2 args exe shadow_dir;
                     EvInfo ("Activating singularity image " +:+ py_str P img)]
      | None => []
      end ++
      match selector context "conda_env" with
      | Some env => [EvInfo ("Activating conda environment: " +:+ py_str P env)]
      | None => []
      end)%list.
Proof.
  intros Hexe. cbv zeta. rewrite !selector_ctx_get.
  unfold activation_chain. cbv zeta. run.
  destruct (truthy (ctx_get context "env_modules" PyNone));
    destruct (truthy (ctx_get context "conda_env" PyNone));
    destruct (truthy (ctx_get context "container_img" PyNone));
    cbn; rewrite ?Hexe; cbn; rewrite <- ?app_assoc, ?app_nil_r; split; reflexivity.
Qed.

(** Without a configured interpreter the container stage fails on line 124
    before the helper is called. *)
Lemma activation_chain_without_executable context cmd w :
  _process_args w !! "executable" = None ->
  truthy (ctx_get context "container_img" PyNone) = true ->
  fst (activation_chain P context cmd w) = inl (KeyError "'executable'").
Proof.
  intros Hexe Himg. unfold activation_chain. cbv zeta. run. rewrite Himg.
  destruct (truthy (ctx_get context "env_modules" PyNone));
    destruct (truthy (ctx_get context "conda_env" PyNone));
    cbn; rewrite Hexe; reflexivity.
Qed.

(** X18. In the blocking modes, whatever becomes of the command (it cannot
    be built, the child cannot be started, it exits with any code): a job id
    that was not registered before the call is not registered after it. *)
Lemma blocking_run_leaves_no_entry cmd args locals kwargs read bench_record w :
  _processes w !! dict_key (ctx_get (kwargs ∪ locals) "jobid" PyNone) = None ->
  _processes (snd (shell_new P cmd args locals kwargs false read bench_record w))
    !! dict_key (ctx_get (kwargs ∪ locals) "jobid" PyNone) = None.
Proof.
  intros Hreg. rewrite shell_new_split.
  destruct (final_command P cmd args locals kwargs false read bench_record w) as [[e|text] w1] eqn:Hfc;
    destruct (final_command_frame _ _ _ _ _ _ _ _ _ _ Hfc) as (Ha & Hp & Hc & _).
  - cbn. rewrite Hp. exact Hreg.
  - destruct (os_popen P (popen_call P text false read (_process_args w1))) as [e|o] eqn:Ho.
    + rewrite (spawn_and_dispatch_refused _ _ _ _ _ _ _ Ho). cbn.
      rewrite Hp. exact Hreg.
    + rewrite (spawn_and_dispatch_blocking _ _ _ _ _ _ Ho). cbn.
      destruct (bool_decide _).
      * rewrite Hp. exact Hreg.
      * apply lookup_delete_eq.
Qed.

(** Streaming: what the call returns and what consuming the lines to the end
    leaves behind. *)
Lemma streaming_run_consumed cmd args locals kwargs read bench_record w text w1 o :
  final_command P cmd args locals kwargs true read bench_record w = (inr text, w1) ->
  os_popen P (popen_call P text true read (_process_args w)) = inr o ->
  exists w2,
    shell_new P cmd args locals kwargs true read bench_record w =
      (inr (RLines (iter_stdout (length (children w)) text)), w2)
    /\ pending (iter_stdout (length (children w)) text) w2 = split_keepends (out_text o)
    /\ trace w2 = (trace w1 ++ [EvPopen (length (children w))
                                  (popen_call P text true read (_process_args w))])%list
    /\ _processes w2 =
         (if bool_decide (ctx_get (kwargs ∪ locals) "jobid" PyNone = PyNone) then _processes w
          else <[dict_key (ctx_get (kwargs ∪ locals) "jobid" PyNone) := length (children w)]> (_processes w))
    /\ exists w3,
         consume_all (iter_stdout (length (children w)) text) w2 =
           (map drop_last (split_keepends (out_text o)),
            (if (out_returncode o =? 0)%Z then Exhausted
             else Raised (CalledProcessError (out_returncode o) text)),
            w3)
         /\ _processes w3 = _processes w2
         /\ trace w3 = (trace w2 ++ [EvWait (length (children w))])%list.
Proof.
  intros Hfc Ho.
  destruct (final_command_frame _ _ _ _ _ _ _ _ _ _ Hfc) as (Ha & Hp & Hc & _).
  rewrite <- Ha in Ho.
  rewrite shell_new_split, Hfc, (spawn_and_dispatch_streaming _ _ _ _ _ _ Ho).
  rewrite Hc, Hp, Ha.
  eexists. split; [reflexivity|].
  assert (Hl : (children w ++ [started P text true read w1 o])%list !! length (children w)
               = Some (started P text true read w1 o)) by apply lookup_snoc.
  split; [unfold pending; cbn; rewrite Hl; reflexivity|].
  split; [reflexivity|]. split; [reflexivity|].
  eexists. split.
  - rewrite (consume_all_drains _ _ (started P text true read w1 o));
      [reflexivity | reflexivity | exact Hl | reflexivity].
  - split; reflexivity.
Qed.

(** A streaming call registers the job and nothing removes it: after the
    lines have all been consumed the entry is still there. *)
Lemma streaming_run_keeps_entry cmd args locals kwargs read bench_record w text w1 o :
  final_command P cmd args locals kwargs true read bench_record w = (inr text, w1) ->
  os_popen P (popen_call P text true read (_process_args w)) = inr o ->
  ctx_get (kwargs ∪ locals) "jobid" PyNone <> PyNone ->
  exists g w2,
    shell_new P cmd args locals kwargs true read bench_record w = (inr (RLines g), w2)
    /\ snd (fst (consume_all g w2)) <> Unfinished
    /\ _processes (snd (consume_all g w2)) !! dict_key (ctx_get (kwargs ∪ locals) "jobid" PyNone)
       = Some (length (children w)).
Proof.
  intros Hfc Ho Hj.
  destruct (streaming_run_consumed _ _ _ _ read bench_record _ _ _ _ Hfc Ho)
    as (w2 & Hrun & _ & _ & Hreg & w3 & Hcons & Hreg3 & _).
  exists (iter_stdout (length (children w)) text), w2.
  split; [exact Hrun|]. rewrite Hcons. cbn [fst snd]. split.
  - destruct (out_returncode o =? 0)%Z; discriminate.
  - rewrite Hreg3, Hreg, bool_decide_eq_false_2 by exact Hj. apply lookup_insert_eq.
Qed.

(** X19. Over output whose lines are all terminated, the generator yields
    one item per line, each the line without its terminator, and then ends
    with [CalledProcessError] exactly when the exit code is not zero. *)
Lemma streaming_yields_terminated_lines cmd args locals kwargs read bench_record w text w1 o :
  final_command P cmd args locals kwargs true read bench_record w = (inr text, w1) ->
  os_popen P (popen_call P text true read (_process_args w)) = inr o ->
  out_text o = "" \/ ends_with_newline (out_text o) = true ->
  exists g w2,
    shell_new P cmd args locals kwargs true read bench_record w = (inr (RLines g), w2)
    /\ fst (fst (consume_all g w2)) = map strip_terminator (split_keepends (out_text o))
    /\ length (fst (fst (consume_all g w2))) = length (split_keepends (out_text o))
    /\ (snd (fst (consume_all g w2)) =
          Raised (CalledProcessError (out_returncode o) text) <-> out_returncode o <> 0%Z)
    /\ (snd (fst (consume_all g w2)) = Exhausted <-> out_returncode o = 0%Z).
Proof.
  intros Hfc Ho Hnl.
  destruct (streaming_run_consumed _ _ _ _ read bench_record _ _ _ _ Hfc Ho)
    as (w2 & Hrun & _ & _ & _ & w3 & Hcons & _).
  exists (iter_stdout (length (children w)) text), w2.
  split; [exact Hrun|]. rewrite Hcons. cbn [fst snd].
  split; [|split; [apply length_map|]].
  - assert (F : Forall (fun l => ends_with_newline l = true) (split_keepends (out_text o))).
    { destruct Hnl as [-> | H]; [constructor | apply split_keepends_terminated, H]. }
    clear Hcons. induction F as [|l ls Hl _ IH]; [reflexivity|].
    cbn [map]. unfold strip_terminator at 1. rewrite Hl, IH. reflexivity.
  - destruct (Z.eqb_spec (out_returncode o) 0) as [Hz|Hz]; split; split;
      intros H; try congruence; discriminate.
Qed.

(** X22. In capture and fire-and-forget mode, in a call during which no
    other thread touches the registry, once the command text is built and
    the child started, [shell(...)] raises [CalledProcessError] exactly when
    the exit code is not zero; the error carries that exit code and the text
    handed to [Popen]; on exit code zero the call returns the captured
    output (capture) or [None] (fire-and-forget).  In the world the call
    leaves, and so at the moment the error is raised, the child has been
    waited for and reaped and the job id, if any, is not in the registry. *)
Theorem blocking_run_raises_iff_nonzero_exit (cmd : string)
    (args : list pyval) (locals kwargs : gmap string pyval) (read : bool)
    (bench_record : option nat) (w w1 : world) (text : string) (o : outcome) :
  final_command P cmd args locals kwargs false read bench_record w = (inr text, w1) ->
  os_popen P (popen_call P text false read (_process_args w)) = inr o ->
  let jobid := ctx_get (kwargs ∪ locals) "jobid" PyNone in
  let pid := length (children w) in
  let result := shell_new P cmd args locals kwargs false read bench_record w in
  ((exists rc c, fst result = inl (CalledProcessError rc c)) <-> out_returncode o <> 0%Z)
  /\ (out_returncode o <> 0%Z ->
        fst result = inl (CalledProcessError (out_returncode o) text))
  /\ (out_returncode o = 0%Z ->
        fst result = inr (if read then RBuffer (out_text o) else RNone))
  /\ children (snd result) !! pid =
       Some {| p_args := popen_call P text false read (_process_args w);
               p_unread := []; p_returncode := out_returncode o; p_reaped := true |}
  /\ trace (snd result) =
       (trace w1 ++ [EvPopen pid (popen_call P text false read (_process_args w))] ++
        (if read then [EvRead pid] else []) ++ bench_events pid bench_record)%list
  /\ (jobid <> PyNone ->
        _processes (snd result) = delete (dict_key jobid) (_processes w))
  /\ (jobid <> PyNone -> _processes (snd result) !! dict_key jobid = None).
Proof.
  intros Hfc Ho jobid pid result.
  destruct (final_command_frame _ _ _ _ _ _ _ _ _ _ Hfc) as (Ha & Hp & Hc & _).
  rewrite <- Ha in Ho.
  assert (E : result =
    ((if (out_returncode o =? 0)%Z
      then inr (if read then RBuffer (out_text o) else RNone)
      else inl (CalledProcessError (out_returncode o) text)),
     {| _process_args := _process_args w1;
        _process_prefix := _process_prefix w1;
        _process_suffix := _process_suffix w1;
        _processes := if bool_decide (jobid = PyNone) then _processes w1
                      else delete (dict_key jobid) (_processes w1);
        children := (children w1 ++
                     [{| p_args := popen_call P text false read (_process_args w1);
                         p_unread := []; p_returncode := out_returncode o;
                         p_reaped := true |}])%list;
        trace := (trace w1 ++
                  [EvPopen (length (children w1))
                     (popen_call P text false read (_process_args w1))] ++
                  (if read then [EvRead (length (children w1))] else []) ++
                  bench_events (length (children w1)) bench_record)%list |})).
  { unfold result. rewrite shell_new_split, Hfc.
    apply (spawn_and_dispatch_blocking _ _ _ _ _ _ Ho). }
  rewrite E. cbn [fst snd children trace _processes]. rewrite Ha, Hp, Hc. fold pid.
  destruct (Z.eqb_spec (out_returncode o) 0) as [Hz|Hz].
  - split; [split; [intros (rc & c & H); discriminate | congruence]|].
    split; [congruence|]. split; [reflexivity|].
    split; [apply lookup_snoc|]. split; [reflexivity|].
    split; intros Hj; rewrite bool_decide_eq_false_2 by exact Hj;
      [reflexivity | apply lookup_delete_eq].
  - split; [split; [intros _; exact Hz | intros _; eauto]|].
    split; [reflexivity|]. split; [congruence|].
    split; [apply lookup_snoc|]. split; [reflexivity|].
    split; intros Hj; rewrite bool_decide_eq_false_2 by exact Hj;
      [reflexivity | apply lookup_delete_eq].
Qed.

(** X23. In streaming mode, once the command text is built and the child
    started, [shell(...)] returns at once the generator over that child, not
    yet started: none of the child's output has been read, the child has not
    been waited for, and the one event after the building of the command is
    the [Popen].  For a given command text, the arguments of [Popen] and
    everything from there on are the same whatever [read] and
    [bench_record] are. *)
Theorem streaming_returns_generator_at_once (cmd : string)
    (args : list pyval) (locals kwargs : gmap string pyval) (read : bool)
    (bench_record : option nat) (w w1 : world) (text : string) (o : outcome) :
  final_command P cmd args locals kwargs true read bench_record w = (inr text, w1) ->
  os_popen P (popen_call P text true read (_process_args w)) = inr o ->
  let pid := length (children w) in
  let result := shell_new P cmd args locals kwargs true read bench_record w in
  fst result = inr (RLines (iter_stdout pid text))
  /\ children (snd result) !! pid =
       Some {| p_args := popen_call P text true read (_process_args w);
               p_unread := split_keepends (out_text o);
               p_returncode := out_returncode o; p_reaped := false |}
  /\ trace (snd result) =
       (trace w1 ++ [EvPopen pid (popen_call P text true read (_process_args w))])%list
  /\ popen_call P text true read (_process_args w)
     = popen_call P text true false (_process_args w)
  /\ spawn_and_dispatch P (kwargs ∪ locals) text true read bench_record w1
     = spawn_and_dispatch P (kwargs ∪ locals) text true false None w1.
Proof.
  intros Hfc Ho pid result.
  destruct (final_command_frame _ _ _ _ _ _ _ _ _ _ Hfc) as (Ha & Hp & Hc & _).
  rewrite <- Ha in Ho. subst result pid.
  assert (E : shell_new P cmd args locals kwargs true read bench_record w =
              (inr (RLines (iter_stdout (length (children w1)) text)),
               {| _process_args := _process_args w1;
                  _process_prefix := _process_prefix w1;
                  _process_suffix := _process_suffix w1;
                  _processes :=
                    if bool_decide (ctx_get (kwargs ∪ locals) "jobid" PyNone = PyNone)
                    then _processes w1
                    else <[dict_key (ctx_get (kwargs ∪ locals) "jobid" PyNone)
                           := length (children w1)]> (_processes w1);
                  children := (children w1 ++ [started P text true read w1 o])%list;
                  trace := (trace w1 ++
                            [EvPopen (length (children w1))
                               (popen_call P text true read (_process_args w1))])%list |})).
  { rewrite shell_new_split, Hfc. apply (spawn_and_dispatch_streaming _ _ _ _ _ _ Ho). }
  rewrite E. cbn [fst snd children trace]. rewrite <- Hc, <- Ha.
  split; [reflexivity|].
  split; [rewrite lookup_snoc; reflexivity|].
  split; [reflexivity|]. split; reflexivity.
Qed.

End Engine.

(** ** Runs on the concrete platform *)

Lemma stepout_rejected_before_any_effect_witness :
  shell_new posix_demo "seq 3" [] ∅ {[ "stepout" := PyInt 3 ]} false true None one_job =
    (inl (KeyError "Argument stepout is not allowed in shell command."), one_job)
  /\ children (snd (shell_new posix_demo "seq 3" [] ∅ {[ "stepout" := PyInt 3 ]} false true None one_job)) = []
  /\ _processes (snd (shell_new posix_demo "seq 3" [] ∅ {[ "stepout" := PyInt 3 ]} false true None one_job)) = _processes one_job
  /\ trace (snd (shell_new posix_demo "seq 3" [] ∅ {[ "stepout" := PyInt 3 ]} false true None one_job)) = [].
Proof.
  apply (stepout_rejected_before_any_effect posix_demo "seq 3" [] ∅
           {[ "stepout" := PyInt 3 ]} false true None one_job (PyInt 3)).
  reflexivity.
Defined.

Lemma activation_chain_applies_stages_in_order_witness :
  fst (activation_chain posix_demo conda_in_container "seq 3" booted) =
    inr "singularity exec  docker://x /usr/bin/bash -c 'source activate envs/a; seq 3'"
  /\ trace (snd (activation_chain posix_demo conda_in_container "seq 3" booted)) =
     [EvConda (PyStr "docker://x") (PyStr "envs/a") "seq 3";
      EvSingularity (PyStr "docker://x") "source activate envs/a; seq 3" (PyStr "")
        "/usr/bin/bash" (PyStr "/tmp/shadow");
      EvInfo "Activating singularity image docker://x";
      EvInfo "Activating conda environment: envs/a"].
Proof.
  apply (activation_chain_applies_stages_in_order posix_demo conda_in_container
           "seq 3" booted "/usr/bin/bash").
  reflexivity.
Defined.

Lemma blocking_run_raises_iff_nonzero_exit_witness :
  fst (shell_new posix_demo "printf 'a\nb'; exit 3" [] {[ "jobid" := PyInt 7 ]} ∅
         false true (Some 1) booted)
    = inl (CalledProcessError 3 "set -euo pipefail; printf 'a\nb'; exit 3 ")
  /\ _processes (snd (shell_new posix_demo "printf 'a\nb'; exit 3" [] {[ "jobid" := PyInt 7 ]} ∅
                        false true (Some 1) booted)) !! PyInt 7 = None.
Proof.
  pose proof (blocking_run_raises_iff_nonzero_exit posix_demo "printf 'a\nb'; exit 3" []
                {[ "jobid" := PyInt 7 ]} ∅ true (Some 1) booted
                (emit (EvShellcmd "printf 'a\nb'; exit 3") booted)
                "set -euo pipefail; printf 'a\nb'; exit 3 " _
                eq_refl eq_refl) as H.
  cbv zeta in H. destruct H as (_ & H2 & _ & _ & _ & _ & H7).
  split; [apply H2; discriminate | apply H7; discriminate].
Defined.

Lemma streaming_returns_generator_at_once_witness :
  fst (shell_new posix_demo "seq 3" [] {[ "jobid" := PyInt 7 ]} ∅ true true (Some 1) booted)
    = inr (RLines (iter_stdout 0 "set -euo pipefail; seq 3 "))
  /\ children (snd (shell_new posix_demo "seq 3" [] {[ "jobid" := PyInt 7 ]} ∅
                      true true (Some 1) booted)) !! 0 =
       Some {| p_args := popen_call posix_demo "set -euo pipefail; seq 3 " true true
                           (_process_args booted);
               p_unread := ["1" +:+ nl; "2" +:+ nl; "3" +:+ nl];
               p_returncode := 0; p_reaped := false |}
  /\ trace (snd (shell_new posix_demo "seq 3" [] {[ "jobid" := PyInt 7 ]} ∅
                   true true (Some 1) booted)) =
       [EvShellcmd "seq 3";
        EvPopen 0 (popen_call posix_demo "set -euo pipefail; seq 3 " true true
                     (_process_args booted))]
  /\ popen_call posix_demo "set -euo pipefail; seq 3 " true true (_process_args booted)
     = popen_call posix_demo "set -euo pipefail; seq 3 " true false (_process_args booted)
  /\ spawn_and_dispatch posix_demo ({[ "jobid" := PyInt 7 ]} ∪ ∅)
       "set -euo pipefail; seq 3 " true true (Some 1) (emit (EvShellcmd "seq 3") booted)
     = spawn_and_dispatch posix_demo ({[ "jobid" := PyInt 7 ]} ∪ ∅)
         "set -euo pipefail; seq 3 " true false None (emit (EvShellcmd "seq 3") booted).
Proof.
  pose proof (streaming_returns_generator_at_once posix_demo "seq 3" []
                {[ "jobid" := PyInt 7 ]} ∅ true (Some 1) booted
                (emit (EvShellcmd "seq 3") booted) "set -euo pipefail; seq 3 " _
                eq_refl eq_refl) as H.
  cbv zeta in H. destruct H as (H1 & H2 & H3 & H4 & H5).
  split; [exact H1|]. split; [exact H2|]. split; [exact H3|].
  split; [exact H4 | exact H5].
Defined.

(** No other thread: the call as [shell_new] has it. *)
Lemma shell_new_among_nobody P cmd args locals kwargs iterable read bench_record w :
  shell_new_among (ret tt) P cmd args locals kwargs iterable read bench_record w
  = shell_new P cmd args locals kwargs iterable read bench_record w.
Proof. reflexivity. Qed.

(** C8. A rule runs [shell("sleep 60")] in fire-and-forget mode with
    [jobid = 7] among its locals; while the call is blocked in [wait], with
    the lock free, another thread calls [shell.kill(7)].  [kill] signals the
    child and deletes the entry (lines 73-75); the wait returns -9; the
    unguarded [del] of line 160 then raises [KeyError] and line 162 is never
    reached: the exit code is not zero and no [CalledProcessError] is raised.
    When the child ends the same way with the registry left alone, the same
    call does raise it. *)
Theorem concurrent_kill_preempts_CalledProcessError :
  let call := shell_new_among (kill (PyInt 7)) posix_sleeper "sleep 60" []
                {[ "jobid" := PyInt 7 ]} ∅ false false None booted in
  fst call = inl (KeyError "7")
  /\ (forall rc c, fst call <> inl (CalledProcessError rc c))
  /\ p_returncode <$> children (snd call) !! 0 = Some (-9)%Z
  /\ p_reaped <$> children (snd call) !! 0 = Some true
  /\ trace (snd call) =
       [EvShellcmd "sleep 60";
        EvPopen 0 (popen_call posix_sleeper "set -euo pipefail; sleep 60 " false false
                     (_process_args booted));
        EvKill 0; EvWait 0]
  /\ _processes (snd call) !! PyInt 7 = None
  /\ fst (shell_new posix_sleeper "sleep 60" [] {[ "jobid" := PyInt 7 ]} ∅
            false false None booted)
     = inl (CalledProcessError (-9) "set -euo pipefail; sleep 60 ").
Proof.
  vm_compute. repeat split. intros rc c H. discriminate H.
Qed.


(** C1. On the concrete platform a streaming call for job 7, not registered
    before the call, returns the generator; consuming it to the end yields
    the three lines and ends normally, the child is reaped, and job 7 is
    still in the registry: [iter_stdout] never deletes the entry that line
    143 made, which lines 158-160 delete only in the blocking modes. *)
Theorem streaming_run_never_deregisters :
  let first := shell_new posix_demo "seq 3" [] {[ "jobid" := PyInt 7 ]} ∅ true false None booted in
  let g := iter_stdout 0 "set -euo pipefail; seq 3 " in
  let last := consume_all g (snd first) in
  _processes booted !! PyInt 7 = None
  /\ fst first = inr (RLines g)
  /\ fst last = (["1"; "2"; "3"], Exhausted)
  /\ p_reaped <$> children (snd last) !! 0 = Some true
  /\ _processes (snd last) !! PyInt 7 = Some 0.
Proof. vm_compute. repeat split. Qed.

(** C9. On the concrete platform a child that prints [a], a newline and [b]
    without a final newline has two lines of output; the generator yields
    [a] and the empty string, since line 169 drops the last character of a
    line whether or not it is a terminator, where stripping the terminator
    gives [a] and [b]. *)
Theorem streaming_truncates_unterminated_line :
  let first := shell_new posix_demo "printf 'a\nb'" [] ∅ ∅ true false None booted in
  let g := iter_stdout 0 "set -euo pipefail; printf 'a\nb' " in
  fst first = inr (RLines g)
  /\ pending g (snd first) = ["a" +:+ nl; "b"]
  /\ map strip_terminator (pending g (snd first)) = ["a"; "b"]
  /\ fst (consume_all g (snd first)) = (["a"; ""], Exhausted).
Proof. vm_compute. repeat split. Qed.

(** * Further properties of the module *)

(** ** Module initialisation *)

Lemma resolve_relative P cmd c r :
  os_name_posix P = true -> posix_isabs cmd = false ->
  shutil_which P cmd = Some (String c r) ->
  resolve P cmd = Some (String c r).
Proof. intros Hp Ha Hw. unfold resolve. rewrite Hp, Ha, Hw. reflexivity. Qed.

(** X1. The module body never raises: [shell.executable] is only called
    with a name the search path has just resolved, so line 53 is not reached
    from lines 175-191, whatever the platform. *)
Theorem module_init_never_raises (P : platform) (w : world) :
  fst (module_init P w) = inr tt.
Proof.
  unfold module_init.
  destruct (os_name_posix P) eqn:Hp; [|reflexivity].
  destruct (shutil_which P "bash") as [[|c r]|] eqn:Hb; cbn [falsy_path].
  1,3: unfold bind, modify;
       destruct (shutil_which P "sh") as [[|c r]|] eqn:Hs; cbn [falsy_path];
       try reflexivity;
       rewrite (executable_resolved P "sh" _ _ (resolve_relative P "sh" c r Hp eq_refl Hs));
       reflexivity.
  rewrite (executable_resolved P "bash" _ _ (resolve_relative P "bash" c r Hp eq_refl Hb)).
  reflexivity.
Qed.

(** X2. On a POSIX system whose search path has [bash], the module body
    stores the path [shutil.which] found as the interpreter, warns about
    nothing, and appends the fail-fast directive to the prefix exactly when
    that path is named [bash]. *)
Theorem module_init_prefers_bash (P : platform) (w : world) (p : string) :
  os_name_posix P = true ->
  shutil_which P "bash" = Some p ->
  p <> "" ->
  _process_args (snd (module_init P w)) = <["executable" := p]> (_process_args w)
  /\ trace (snd (module_init P w)) = trace w
  /\ _process_prefix (snd (module_init P w)) =
       (if String.eqb (posix_split_tail p) "bash"
        then _process_prefix w +:+ fail_fast else _process_prefix w)
  /\ _process_suffix (snd (module_init P w)) = _process_suffix w
  /\ _processes (snd (module_init P w)) = _processes w.
Proof.
  intros Hp Hb Hne. destruct p as [|c r]; [congruence|].
  unfold module_init. rewrite Hp, Hb. cbn [falsy_path].
  rewrite (executable_resolved P "bash" _ _ (resolve_relative P "bash" c r Hp eq_refl Hb)).
  unfold os_path_split_tail. rewrite Hp.
  destruct (String.eqb (posix_split_tail (String c r)) "bash"); repeat split.
Qed.

Lemma module_init_prefers_bash_witness :
  _process_args (snd (module_init posix_demo world0)) = <["executable" := "/usr/bin/bash"]> ∅
  /\ trace (snd (module_init posix_demo world0)) = []
  /\ _process_prefix (snd (module_init posix_demo world0)) = "set -euo pipefail; "
  /\ _process_suffix (snd (module_init posix_demo world0)) = ""
  /\ _processes (snd (module_init posix_demo world0)) = ∅.
Proof.
  apply (module_init_prefers_bash posix_demo world0 "/usr/bin/bash");
    [reflexivity | reflexivity | discriminate].
Defined.

(** X3. On a POSIX system whose search path has no [bash], the module body
    first warns that it falls back to [sh].  When [sh] is found, its path
    becomes the interpreter; when it is not, a second warning follows and the
    configuration stays as it was, with no interpreter chosen. *)
Theorem module_init_falls_back_to_sh (P : platform) (w : world) :
  os_name_posix P = true ->
  falsy_path (shutil_which P "bash") = true ->
  let fallback := EvWarning ("Cannot set bash as default shell because it is not " +:+
                             "available in your PATH. Falling back to sh.") in
  let giving_up := EvWarning ("Cannot fall back to sh since it seems to be not " +:+
                              "available on this system. Using whatever is " +:+
                              "defined as default.") in
  (forall p, shutil_which P "sh" = Some p -> p <> "" ->
     trace (snd (module_init P w)) = (trace w ++ [fallback])%list
     /\ _process_args (snd (module_init P w)) = <["executable" := p]> (_process_args w))
  /\ (falsy_path (shutil_which P "sh") = true ->
      trace (snd (module_init P w)) = (trace w ++ [fallback; giving_up])%list
      /\ _process_args (snd (module_init P w)) = _process_args w
      /\ _process_prefix (snd (module_init P w)) = _process_prefix w).
Proof.
  intros Hp Hb fallback giving_up. unfold module_init. rewrite Hp, Hb.
  unfold bind, modify. split.
  - intros p Hs Hne. destruct p as [|c r]; [congruence|].
    rewrite Hs. cbn [falsy_path].
    rewrite (executable_resolved P "sh" _ _ (resolve_relative P "sh" c r Hp eq_refl Hs)).
    destruct (String.eqb _ _); split; reflexivity.
  - intros Hs. rewrite Hs. cbn. rewrite <- app_assoc. repeat split.
Qed.

Lemma module_init_falls_back_to_sh_witness :
  (trace (snd (module_init posix_sh_only world0)) =
     [EvWarning ("Cannot set bash as default shell because it is not " +:+
                 "available in your PATH. Falling back to sh.")]
   /\ _process_args (snd (module_init posix_sh_only world0)) = <["executable" := "/bin/sh"]> ∅)
  /\ (trace (snd (module_init posix_no_shell world0)) =
        [EvWarning ("Cannot set bash as default shell because it is not " +:+
                    "available in your PATH. Falling back to sh.");
         EvWarning ("Cannot fall back to sh since it seems to be not " +:+
                    "available on this system. Using whatever is " +:+
                    "defined as default.")]
      /\ _process_args (snd (module_init posix_no_shell world0)) = ∅
      /\ _process_prefix (snd (module_init posix_no_shell world0)) = "").
Proof.
  split.
  - apply (proj1 (module_init_falls_back_to_sh posix_sh_only world0 eq_refl eq_refl) "/bin/sh");
      [reflexivity | discriminate].
  - apply (proj2 (module_init_falls_back_to_sh posix_no_shell world0 eq_refl eq_refl)).
    reflexivity.
Defined.

(** ** Global shell configuration *)

(** X4. Off POSIX, or with an absolute path, [shell.executable] never fails
    and never consults the search path: the path is stored exactly as given,
    [shell.get_executable] returns it, and the prefix changes only when the
    path is named [bash]. *)
Theorem executable_keeps_given_path (P : platform) (cmd : string) (w : world) :
  os_name_posix P = false \/ posix_isabs cmd = true ->
  fst (executable P cmd w) = inr tt
  /\ get_executable (snd (executable P cmd w)) = (inr (Some cmd), snd (executable P cmd w))
  /\ (os_path_split_tail P cmd <> "bash" ->
      _process_prefix (snd (executable P cmd w)) = _process_prefix w)
  /\ _processes (snd (executable P cmd w)) = _processes w.
Proof.
  intros H.
  assert (R : resolve P cmd = Some cmd).
  { unfold resolve. destruct H as [-> | ->]; [reflexivity|].
    rewrite andb_false_r. reflexivity. }
  rewrite (executable_resolved P _ _ _ R). cbn [fst snd].
  split; [reflexivity|]. split.
  - unfold get_executable, gets. cbn. rewrite lookup_insert_eq. reflexivity.
  - split.
    + intros Hne. destruct (String.eqb_spec (os_path_split_tail P cmd) "bash"); [congruence|].
      reflexivity.
    + destruct (String.eqb _ _); reflexivity.
Qed.

Lemma executable_keeps_given_path_witness :
  fst (executable posix_demo "/bin/dash" booted) = inr tt
  /\ get_executable (snd (executable posix_demo "/bin/dash" booted))
     = (inr (Some "/bin/dash"), snd (executable posix_demo "/bin/dash" booted))
  /\ (os_path_split_tail posix_demo "/bin/dash" <> "bash" ->
      _process_prefix (snd (executable posix_demo "/bin/dash" booted)) = _process_prefix booted)
  /\ _processes (snd (executable posix_demo "/bin/dash" booted)) = _processes booted.
Proof.
  apply (executable_keeps_given_path posix_demo "/bin/dash" booted).
  right. reflexivity.
Defined.

(** X5. On POSIX, when the search path does not resolve a relative name,
    [shell.executable] raises and changes nothing: interpreter, prefix and
    suffix are those of before the call. *)
Theorem executable_failure_changes_nothing (P : platform) (cmd : string) (w : world) :
  os_name_posix P = true ->
  posix_isabs cmd = false ->
  falsy_path (shutil_which P cmd) = true ->
  exists e, executable P cmd w = (inl e, w).
Proof.
  intros Hp Ha Hw. exists (NameError "WorkflowError").
  apply executable_unresolved. unfold resolve. rewrite Hp, Ha.
  destruct (shutil_which P cmd) as [[|c r]|]; [reflexivity | discriminate | reflexivity].
Qed.

Lemma executable_failure_changes_nothing_witness :
  exists e, executable posix_demo "fish" booted = (inl e, booted).
Proof.
  apply (executable_failure_changes_nothing posix_demo "fish" booted); reflexivity.
Defined.

Lemma executable_stores_resolved_path_witness :
  fst (executable posix_demo "sh" booted) = inr tt
  /\ _process_args (snd (executable posix_demo "sh" booted)) !! "executable" = Some "/bin/sh".
Proof.
  apply (executable_stores_resolved_path posix_demo "sh" booted "/bin/sh");
    [reflexivity | reflexivity | reflexivity | discriminate].
Defined.

(** ** The process registry *)

(** X8. [kill(jobid)] leaves every entry but the one under the job's key,
    and the children themselves, as they were. *)
Theorem kill_leaves_other_jobs (jobid other : pyval) (w : world) :
  other <> dict_key jobid ->
  _processes (snd (kill jobid w)) !! other = _processes w !! other
  /\ children (snd (kill jobid w)) = children w.
Proof.
  intros Hne. destruct (_processes w !! dict_key jobid) as [proc|] eqn:H.
  - rewrite (kill_registered _ _ _ H). cbn. split; [|reflexivity].
    apply lookup_delete_ne. congruence.
  - rewrite (kill_unregistered _ _ H). split; reflexivity.
Qed.

Lemma kill_leaves_other_jobs_witness :
  _processes (snd (kill (PyInt 8) one_job)) !! PyInt 7 = _processes one_job !! PyInt 7
  /\ children (snd (kill (PyInt 8) one_job)) = children one_job.
Proof.
  apply (kill_leaves_other_jobs (PyInt 8) (PyInt 7) one_job). discriminate.
Defined.

(** X9. After [cleanup] the registry is empty, so [kill] of any job is a
    no-op; [cleanup] itself signals no child and leaves the children
    untouched. *)
Theorem cleanup_forgets_every_job (jobid : pyval) (w : world) :
  fst (cleanup w) = inr tt
  /\ _processes (snd (cleanup w)) = ∅
  /\ trace (snd (cleanup w)) = trace w
  /\ children (snd (cleanup w)) = children w
  /\ kill jobid (snd (cleanup w)) = (inr tt, snd (cleanup w)).
Proof.
  do 4 (split; [reflexivity|]).
  apply kill_unregistered. apply lookup_empty.
Qed.

(** ** The execution engine *)

Section Runs.

Context (P : platform) (cmd : string) (args : list pyval)
  (locals kwargs : gmap string pyval).

Lemma is_log_not_kill evs :
  forallb is_log evs = true -> forallb (fun e => negb (is_kill e)) evs = true.
Proof.
  induction evs as [|e evs IH]; [reflexivity|]. cbn.
  intros H. apply andb_prop in H as [He Hs]. rewrite (IH Hs).
  destruct e; try discriminate; reflexivity.
Qed.

(** With no reserved keyword and a formatter that accepts the template on
    line 99 and the three strings on lines 107 to 109, building the command
    is: log the formatted template unless [is_shell], then run the activation
    chain over the base command. *)
Lemma final_command_eq iterable read bench_record w l p c s :
  kwargs !! "stepout" = None ->
  (truthy (ctx_get (kwargs ∪ locals) "is_shell" PyNone) = false ->
   fmt P args kwargs
     [new_frame_99 P cmd iterable read bench_record (kwargs ∪ locals); locals] cmd = inr l) ->
  fmt P args kwargs
    [new_frame_107 P cmd iterable read bench_record (kwargs ∪ locals); locals]
    (_process_prefix w) = inr p ->
  fmt P args kwargs
    [new_frame_107 P cmd iterable read bench_record (kwargs ∪ locals); locals] cmd = inr c ->
  fmt P args kwargs
    [new_frame_107 P cmd iterable read bench_record (kwargs ∪ locals); locals]
    (_process_suffix w) = inr s ->
  final_command P cmd args locals kwargs iterable read bench_record w =
    activation_chain P (kwargs ∪ locals) (p +:+ " " +:+ c +:+ " " +:+ s)
      (if truthy (ctx_get (kwargs ∪ locals) "is_shell" PyNone) then w
       else emit (EvShellcmd l) w).
Proof.
  intros Hk Hl Hp Hc Hs. unfold final_command. rewrite Hk.
  unfold bind at 1. unfold ret at 1. unfold bind at 1. cbv zeta.
  destruct (truthy (ctx_get (kwargs ∪ locals) "is_shell" PyNone)); cbn [negb when_].
  - unfold ret at 1.
    rewrite (bind_inr _ _ _ _ _ (base_command_eq P args kwargs _ cmd w p c s Hp Hc Hs)).
    reflexivity.
  - unfold bind at 1. unfold lift at 1. rewrite (Hl eq_refl). unfold modify at 1.
    rewrite (bind_inr _ _ _ _ _
               (base_command_eq P args kwargs _ cmd (emit (EvShellcmd l) w) p c s Hp Hc Hs)).
    reflexivity.
Qed.

(** X10. An error met before a child exists reaches the caller as it is:
    one raised while the command is built, or the operating system's refusal
    to start the child.  In both cases no child has been added and the
    registry is as it was. *)
Theorem errors_before_start_propagate_unwrapped (iterable read : bool)
    (bench_record : option nat) (w w1 : world) (e : exn) :
  (final_command P cmd args locals kwargs iterable read bench_record w = (inl e, w1)
   \/ exists text,
        final_command P cmd args locals kwargs iterable read bench_record w = (inr text, w1)
        /\ os_popen P (popen_call P text iterable read (_process_args w)) = inl e) ->
  shell_new P cmd args locals kwargs iterable read bench_record w = (inl e, w1)
  /\ children w1 = children w
  /\ _processes w1 = _processes w.
Proof.
  intros [Hfc | (text & Hfc & Ho)];
    destruct (final_command_frame P _ _ _ _ _ _ _ _ _ _ Hfc) as (Ha & Hp & Hc & _);
    rewrite shell_new_split, Hfc.
  - repeat split; assumption.
  - rewrite <- Ha in Ho.
    rewrite (spawn_and_dispatch_refused P _ _ _ _ _ _ _ Ho). repeat split; assumption.
Qed.

(** X11. Whatever the mode and the outcome, a call touches no registry
    entry but the one of its own job id. *)
Theorem run_leaves_other_jobs (iterable read : bool) (bench_record : option nat)
    (w : world) (other : pyval) :
  other <> dict_key (ctx_get (kwargs ∪ locals) "jobid" PyNone) ->
  _processes (snd (shell_new P cmd args locals kwargs iterable read bench_record w)) !! other
    = _processes w !! other.
Proof.
  intros Hne. rewrite shell_new_split.
  destruct (final_command P cmd args locals kwargs iterable read bench_record w) as [[e|text] w1] eqn:Hfc;
    destruct (final_command_frame P _ _ _ _ _ _ _ _ _ _ Hfc) as (Ha & Hp & Hc & _).
  - cbn. rewrite Hp. reflexivity.
  - destruct (os_popen P (popen_call P text iterable read (_process_args w1))) as [e|o] eqn:Ho.
    + rewrite (spawn_and_dispatch_refused P _ _ _ _ _ _ _ Ho). cbn. rewrite Hp. reflexivity.
    + destruct iterable.
      * rewrite (spawn_and_dispatch_streaming P _ _ _ _ _ _ Ho). cbn.
        destruct (bool_decide _); rewrite Hp; [reflexivity|].
        apply lookup_insert_ne. congruence.
      * rewrite (spawn_and_dispatch_blocking P _ _ _ _ _ _ Ho). cbn.
        destruct (bool_decide _); rewrite Hp; [reflexivity|].
        apply lookup_delete_ne. congruence.
Qed.

(** X12. A call never sends a signal: the events it adds to the trace
    include no [kill], whatever the mode and the outcome. *)
Theorem run_never_signals (iterable read : bool) (bench_record : option nat) (w : world) :
  exists evs,
    trace (snd (shell_new P cmd args locals kwargs iterable read bench_record w))
      = (trace w ++ evs)%list
    /\ forallb (fun e => negb (is_kill e)) evs = true.
Proof.
  rewrite shell_new_split.
  destruct (final_command P cmd args locals kwargs iterable read bench_record w) as [[e|text] w1] eqn:Hfc;
    destruct (final_command_frame P _ _ _ _ _ _ _ _ _ _ Hfc) as (_ & _ & _ & evs & Ht & Hq).
  - exists evs. split; [exact Ht | apply is_log_not_kill, Hq].
  - destruct (os_popen P (popen_call P text iterable read (_process_args w1))) as [e|o] eqn:Ho.
    + rewrite (spawn_and_dispatch_refused P _ _ _ _ _ _ _ Ho).
      exists evs. split; [exact Ht | apply is_log_not_kill, Hq].
    + destruct iterable.
      * rewrite (spawn_and_dispatch_streaming P _ _ _ _ _ _ Ho). cbn [snd trace].
        eexists. split; [rewrite Ht, <- app_assoc; reflexivity|].
        rewrite forallb_app, (is_log_not_kill _ Hq). reflexivity.
      * rewrite (spawn_and_dispatch_blocking P _ _ _ _ _ _ Ho). cbn [snd trace].
        eexists. split; [rewrite Ht, <- app_assoc; reflexivity|].
        rewrite forallb_app, (is_log_not_kill _ Hq).
        destruct read, bench_record; reflexivity.
Qed.

(** X13. The job id a call registers under is the keyword argument's when
    one is given, whatever the caller's locals hold; the keyword [jobid=None]
    turns registration off. *)
Theorem keyword_jobid_decides_registration (read : bool) (bench_record : option nat)
    (w w1 : world) (text : string) (o : outcome) (j : pyval) :
  kwargs !! "jobid" = Some j ->
  final_command P cmd args locals kwargs true read bench_record w = (inr text, w1) ->
  os_popen P (popen_call P text true read (_process_args w)) = inr o ->
  _processes (snd (shell_new P cmd args locals kwargs true read bench_record w)) =
    (if bool_decide (j = PyNone) then _processes w
     else <[dict_key j := length (children w)]> (_processes w)).
Proof.
  intros Hj Hfc Ho.
  destruct (streaming_run_consumed P _ _ _ _ read bench_record _ _ _ _ Hfc Ho)
    as (w2 & Hrun & _ & _ & Hreg & _).
  rewrite Hrun. cbn [snd]. rewrite Hreg.
  unfold ctx_get. rewrite (lookup_union_Some_l _ _ _ _ Hj). reflexivity.
Qed.

(** X14. A streaming call leaves its child within reach of [kill]: called
    with the job id of the call, [kill] sends the signal to the child the
    call started and removes the entry. *)
Theorem streaming_job_can_be_killed (read : bool) (bench_record : option nat)
    (w w1 : world) (text : string) (o : outcome) :
  final_command P cmd args locals kwargs true read bench_record w = (inr text, w1) ->
  os_popen P (popen_call P text true read (_process_args w)) = inr o ->
  ctx_get (kwargs ∪ locals) "jobid" PyNone <> PyNone ->
  let w2 := snd (shell_new P cmd args locals kwargs true read bench_record w) in
  let w3 := snd (kill (ctx_get (kwargs ∪ locals) "jobid" PyNone) w2) in
  fst (kill (ctx_get (kwargs ∪ locals) "jobid" PyNone) w2) = inr tt
  /\ trace w3 = (trace w2 ++ [EvKill (length (children w))])%list
  /\ _processes w3 !! dict_key (ctx_get (kwargs ∪ locals) "jobid" PyNone) = None.
Proof.
  intros Hfc Ho Hj.
  destruct (streaming_run_consumed P _ _ _ _ read bench_record _ _ _ _ Hfc Ho)
    as (w2 & Hrun & _ & _ & Hreg & _).
  rewrite Hrun. cbn [snd].
  assert (Hl : _processes w2 !! dict_key (ctx_get (kwargs ∪ locals) "jobid" PyNone)
               = Some (length (children w))).
  { rewrite Hreg, bool_decide_eq_false_2 by exact Hj. apply lookup_insert_eq. }
  rewrite (kill_registered _ _ _ Hl). cbn.
  split; [reflexivity|]. split; [reflexivity|]. apply lookup_delete_eq.
Qed.

End Runs.

Section Commands.

Context (P : platform) (cmd : string) (args : list pyval)
  (locals kwargs : gmap string pyval).

(** X15. In a context that selects no module, conda environment or
    container, the text handed on to [Popen] is the base command itself.
    Unless [is_shell] is set, the one event logged is the formatted template,
    without prefix and suffix; with [is_shell] set nothing is logged.  The
    template is formatted on line 99 for the log and again on line 108 for
    the command, each time against the locals [__new__] has bound by then. *)
Theorem plain_context_runs_base_command (iterable read : bool)
    (bench_record : option nat) (w : world) (l p c s : string) :
  kwargs !! "stepout" = None ->
  (truthy (ctx_get (kwargs ∪ locals) "is_shell" PyNone) = false ->
   fmt P args kwargs
     [new_frame_99 P cmd iterable read bench_record (kwargs ∪ locals); locals] cmd = inr l) ->
  fmt P args kwargs
    [new_frame_107 P cmd iterable read bench_record (kwargs ∪ locals); locals]
    (_process_prefix w) = inr p ->
  fmt P args kwargs
    [new_frame_107 P cmd iterable read bench_record (kwargs ∪ locals); locals] cmd = inr c ->
  fmt P args kwargs
    [new_frame_107 P cmd iterable read bench_record (kwargs ∪ locals); locals]
    (_process_suffix w) = inr s ->
  selector (kwargs ∪ locals) "env_modules" = None ->
  selector (kwargs ∪ locals) "conda_env" = None ->
  selector (kwargs ∪ locals) "container_img" = None ->
  final_command P cmd args locals kwargs iterable read bench_record w =
    (inr (p +:+ " " +:+ c +:+ " " +:+ s),
     if truthy (ctx_get (kwargs ∪ locals) "is_shell" PyNone) then w
     else emit (EvShellcmd l) w).
Proof.
  intros Hk Hl Hp Hc Hs Hm Hco Hi.
  rewrite (final_command_eq P cmd args locals kwargs _ _ _ w l p c s Hk Hl Hp Hc Hs).
  rewrite selector_ctx_get in Hm, Hco, Hi.
  unfold activation_chain. cbv zeta.
  destruct (truthy (ctx_get (kwargs ∪ locals) "env_modules" PyNone)); [discriminate|].
  destruct (truthy (ctx_get (kwargs ∪ locals) "conda_env" PyNone)); [discriminate|].
  destruct (truthy (ctx_get (kwargs ∪ locals) "container_img" PyNone)); [discriminate|].
  reflexivity.
Qed.

(** X16. With a container image selected and no interpreter configured, a
    call that passes no [stepout] keyword and whose prefix, template and
    suffix the formatter accepts fails on line 124 with the [KeyError] of the
    missing key, before any child is started and without touching the
    registry. *)
Theorem container_without_interpreter_fails_before_spawn (iterable read : bool)
    (bench_record : option nat) (w : world) (l p c s : string) :
  kwargs !! "stepout" = None ->
  (truthy (ctx_get (kwargs ∪ locals) "is_shell" PyNone) = false ->
   fmt P args kwargs
     [new_frame_99 P cmd iterable read bench_record (kwargs ∪ locals); locals] cmd = inr l) ->
  fmt P args kwargs
    [new_frame_107 P cmd iterable read bench_record (kwargs ∪ locals); locals]
    (_process_prefix w) = inr p ->
  fmt P args kwargs
    [new_frame_107 P cmd iterable read bench_record (kwargs ∪ locals); locals] cmd = inr c ->
  fmt P args kwargs
    [new_frame_107 P cmd iterable read bench_record (kwargs ∪ locals); locals]
    (_process_suffix w) = inr s ->
  truthy (ctx_get (kwargs ∪ locals) "container_img" PyNone) = true ->
  _process_args w !! "executable" = None ->
  fst (shell_new P cmd args locals kwargs iterable read bench_record w)
    = inl (KeyError "'executable'")
  /\ children (snd (shell_new P cmd args locals kwargs iterable read bench_record w))
     = children w
  /\ _processes (snd (shell_new P cmd args locals kwargs iterable read bench_record w))
     = _processes w.
Proof.
  intros Hk Hl Hp Hc Hs Hi He.
  destruct (final_command P cmd args locals kwargs iterable read bench_record w) as [r w1] eqn:Hfc.
  destruct (final_command_frame P _ _ _ _ _ _ _ _ _ _ Hfc) as (_ & Hreg & Hch & _).
  assert (Hr : r = inl (KeyError "'executable'")).
  { pose proof Hfc as H.
    rewrite (final_command_eq P cmd args locals kwargs _ _ _ w l p c s Hk Hl Hp Hc Hs) in H.
    pose proof (activation_chain_without_executable P (kwargs ∪ locals)
                  (p +:+ " " +:+ c +:+ " " +:+ s)
                  (if truthy (ctx_get (kwargs ∪ locals) "is_shell" PyNone) then w
                   else emit (EvShellcmd l) w)) as F.
    rewrite H in F. cbn [fst] in F. apply F; [|exact Hi].
    destruct (truthy (ctx_get (kwargs ∪ locals) "is_shell" PyNone)); exact He. }
  subst r. rewrite shell_new_split, Hfc. cbn [fst snd].
  repeat split; assumption.
Qed.

End Commands.

(** ** The generator *)

Lemma alter_same_unread pid p (cs : list process) :
  cs !! pid = Some p -> alter (set_unread (p_unread p)) pid cs = cs.
Proof.
  intros H. transitivity (alter (fun x => x) pid cs).
  - apply list_alter_ext; [|reflexivity]. intros x Hx. rewrite H in Hx.
    injection Hx as <-. destruct p; reflexivity.
  - apply list_alter_id. reflexivity.
Qed.

Lemma consume_partial n : forall g w p,
  g_finished g = false ->
  children w !! g_proc g = Some p ->
  pa_stdout (p_args p) = PIPE ->
  n <= length (p_unread p) ->
  consume n g w =
    (map drop_last (take n (p_unread p)), Unfinished,
     set_children (alter (set_unread (drop n (p_unread p))) (g_proc g)) w).
Proof.
  induction n as [|n IH]; intros g w p Hf Hc Hp Hn.
  - rewrite drop_0, take_0. cbn [consume map]. f_equal.
    unfold set_children. rewrite (alter_same_unread _ _ _ Hc). destruct w; reflexivity.
  - destruct (p_unread p) as [|l ls] eqn:Hu; [cbn in Hn; lia|].
    cbn [consume]. unfold iter_stdout_next. rewrite Hf.
    pose proof (proc_stdout_readline_eq _ _ _ Hc Hp) as Hr. rewrite Hu in Hr.
    rewrite (bind_inr _ _ _ _ _ Hr). unfold ret.
    rewrite (IH g _ (set_unread ls p)); [| exact Hf | | exact Hp | cbn in *; lia].
    + rewrite firstn_cons, skipn_cons. cbn [map p_unread set_unread]. f_equal.
      unfold set_children. cbn. f_equal.
      rewrite list_alter_alter_eq. apply list_alter_ext; reflexivity.
    + cbn. rewrite list_lookup_alter_eq, Hc. reflexivity.
Qed.

(** X17. The generator is lazy: a consumer that stops after [n] of the
    pending lines has received the first [n] of them, each without its last
    character; the remaining lines are still pending, and the child has been
    neither waited for nor reaped, since line 170 is reached only when the
    output is exhausted. *)
Theorem early_stop_leaves_child_unreaped (n : nat) (g : generator) (w : world) (p : process) :
  g_finished g = false ->
  children w !! g_proc g = Some p ->
  pa_stdout (p_args p) = PIPE ->
  n <= length (p_unread p) ->
  fst (consume n g w) = (map drop_last (take n (p_unread p)), Unfinished)
  /\ pending g (snd (consume n g w)) = drop n (p_unread p)
  /\ trace (snd (consume n g w)) = trace w
  /\ p_reaped <$> children (snd (consume n g w)) !! g_proc g = Some (p_reaped p)
  /\ _processes (snd (consume n g w)) = _processes w.
Proof.
  intros Hf Hc Hp Hn. rewrite (consume_partial n g w p Hf Hc Hp Hn). cbn [fst snd].
  split; [reflexivity|]. unfold pending. cbn.
  rewrite list_lookup_alter_eq, Hc. cbn. repeat split.
Qed.

(** ** Further runs on the concrete platform *)

Lemma errors_before_start_propagate_unwrapped_witness :
  shell_new posix_demo "no-such-interpreter" [] {[ "jobid" := PyInt 7 ]} ∅ false true None booted
    = (inl (OSError "No such file or directory"),
       emit (EvShellcmd "no-such-interpreter") booted)
  /\ children (emit (EvShellcmd "no-such-interpreter") booted) = children booted
  /\ _processes (emit (EvShellcmd "no-such-interpreter") booted) = _processes booted.
Proof.
  apply (errors_before_start_propagate_unwrapped posix_demo "no-such-interpreter" []
           {[ "jobid" := PyInt 7 ]} ∅ false true None booted).
  right. exists "set -euo pipefail; no-such-interpreter ". split; reflexivity.
Defined.

Lemma run_leaves_other_jobs_witness :
  _processes (snd (shell_new posix_demo "seq 3" [] {[ "jobid" := PyInt 8 ]} ∅
                     true false None one_job)) !! PyInt 7
    = _processes one_job !! PyInt 7.
Proof.
  apply (run_leaves_other_jobs posix_demo "seq 3" [] {[ "jobid" := PyInt 8 ]} ∅
           true false None one_job (PyInt 7)).
  discriminate.
Defined.

Lemma keyword_jobid_decides_registration_witness :
  _processes (snd (shell_new posix_demo "seq 3" [] {[ "jobid" := PyInt 7 ]}
                     {[ "jobid" := PyNone ]} true false None booted))
    = _processes booted.
Proof.
  exact (keyword_jobid_decides_registration posix_demo "seq 3" [] {[ "jobid" := PyInt 7 ]}
           {[ "jobid" := PyNone ]} false None booted _ _ _ PyNone eq_refl eq_refl eq_refl).
Defined.

Lemma streaming_job_can_be_killed_witness :
  fst (kill (PyInt 7)
         (snd (shell_new posix_demo "seq 3" [] {[ "jobid" := PyInt 7 ]} ∅
                 true false None booted))) = inr tt
  /\ trace (snd (kill (PyInt 7)
                   (snd (shell_new posix_demo "seq 3" [] {[ "jobid" := PyInt 7 ]} ∅
                           true false None booted))))
     = (trace (snd (shell_new posix_demo "seq 3" [] {[ "jobid" := PyInt 7 ]} ∅
                      true false None booted)) ++ [EvKill 0])%list
  /\ _processes (snd (kill (PyInt 7)
                        (snd (shell_new posix_demo "seq 3" [] {[ "jobid" := PyInt 7 ]} ∅
                                true false None booted)))) !! PyInt 7 = None.
Proof.
  refine (streaming_job_can_be_killed posix_demo "seq 3" [] {[ "jobid" := PyInt 7 ]} ∅
            false None booted
            (emit (EvShellcmd "seq 3") booted) "set -euo pipefail; seq 3 " _
            eq_refl eq_refl _).
  discriminate.
Defined.

Lemma plain_context_runs_base_command_witness :
  final_command posix_demo "  ls -l  " [] ∅ ∅ false false None booted
    = (inr "set -euo pipefail; ls -l ", emit (EvShellcmd "ls -l") booted).
Proof.
  exact (plain_context_runs_base_command posix_demo "  ls -l  " [] ∅ ∅ false false None booted
           "ls -l" "set -euo pipefail;" "ls -l" ""
           eq_refl (fun _ => eq_refl) eq_refl eq_refl eq_refl eq_refl eq_refl eq_refl).
Defined.

Lemma container_without_interpreter_fails_before_spawn_witness :
  fst (shell_new posix_demo "ls" [] {[ "container_img" := PyStr "docker://x" ]} ∅
         false false None world0) = inl (KeyError "'executable'")
  /\ children (snd (shell_new posix_demo "ls" [] {[ "container_img" := PyStr "docker://x" ]} ∅
                      false false None world0)) = []
  /\ _processes (snd (shell_new posix_demo "ls" [] {[ "container_img" := PyStr "docker://x" ]} ∅
                        false false None world0)) = ∅.
Proof.
  exact (container_without_interpreter_fails_before_spawn posix_demo "ls" []
           {[ "container_img" := PyStr "docker://x" ]} ∅ false false None world0
           "ls" "" "ls" "" eq_refl (fun _ => eq_refl) eq_refl eq_refl eq_refl eq_refl eq_refl).
Defined.

Lemma early_stop_leaves_child_unreaped_witness :
  let w2 := snd (shell_new posix_demo "seq 3" [] ∅ ∅ true false None booted) in
  let g := iter_stdout 0 "set -euo pipefail; seq 3 " in
  fst (consume 2 g w2) = (["1"; "2"], Unfinished)
  /\ pending g (snd (consume 2 g w2)) = ["3" +:+ nl]
  /\ trace (snd (consume 2 g w2)) = trace w2
  /\ p_reaped <$> children (snd (consume 2 g w2)) !! 0 = Some false
  /\ _processes (snd (consume 2 g w2)) = _processes w2.
Proof.
  refine (early_stop_leaves_child_unreaped 2
            (iter_stdout 0 "set -euo pipefail; seq 3 ")
            (snd (shell_new posix_demo "seq 3" [] ∅ ∅ true false None booted))
            _ eq_refl eq_refl eq_refl _).
  vm_compute. lia.
Defined.

Lemma blocking_run_leaves_no_entry_witness :
  _processes (snd (shell_new posix_demo "exit 3" [] {[ "jobid" := PyInt 7 ]} ∅
                     false false None booted)) !! PyInt 7 = None.
Proof.
  exact (blocking_run_leaves_no_entry posix_demo "exit 3" [] {[ "jobid" := PyInt 7 ]} ∅
           false None booted eq_refl).
Defined.

Lemma streaming_yields_terminated_lines_witness :
  exists g w2,
    shell_new posix_demo "seq 3" [] ∅ ∅ true false None booted = (inr (RLines g), w2)
    /\ fst (fst (consume_all g w2)) = ["1"; "2"; "3"]
    /\ length (fst (fst (consume_all g w2))) = 3
    /\ (snd (fst (consume_all g w2)) =
          Raised (CalledProcessError 0 "set -euo pipefail; seq 3 ") <-> 0%Z <> 0%Z)
    /\ (snd (fst (consume_all g w2)) = Exhausted <-> 0%Z = 0%Z).
Proof.
  exact (streaming_yields_terminated_lines posix_demo "seq 3" [] ∅ ∅ false None booted
           _ _ _ eq_refl eq_refl (or_intror eq_refl)).
Defined.

(** X20. Consuming a streaming call's generator to the end delivers one item
    per line of the child's output, each the line without its last character,
    and only then waits for the child: the loop ends normally on exit code
    zero and with [CalledProcessError], carrying the exit code and the text
    handed to [Popen], otherwise.  The child is then reaped and its output
    read to the end. *)
Theorem streaming_delivers_lines_then_exit_status (P : platform) (cmd : string)
    (args : list pyval) (locals kwargs : gmap string pyval) (read : bool)
    (bench_record : option nat) (w w1 : world) (text : string) (o : outcome) :
  final_command P cmd args locals kwargs true read bench_record w = (inr text, w1) ->
  os_popen P (popen_call P text true read (_process_args w)) = inr o ->
  let g := iter_stdout (length (children w)) text in
  let w2 := snd (shell_new P cmd args locals kwargs true read bench_record w) in
  fst (shell_new P cmd args locals kwargs true read bench_record w) = inr (RLines g)
  /\ fst (consume_all g w2) =
       (map drop_last (split_keepends (out_text o)),
        if (out_returncode o =? 0)%Z then Exhausted
        else Raised (CalledProcessError (out_returncode o) text))
  /\ trace (snd (consume_all g w2)) = (trace w2 ++ [EvWait (length (children w))])%list
  /\ children (snd (consume_all g w2)) !! length (children w) =
       Some {| p_args := popen_call P text true read (_process_args w);
               p_unread := []; p_returncode := out_returncode o; p_reaped := true |}.
Proof.
  intros Hfc Ho g w2.
  destruct (final_command_frame P _ _ _ _ _ _ _ _ _ _ Hfc) as (Ha & Hp & Hc & _).
  rewrite <- Ha in Ho. subst g w2.
  rewrite shell_new_split, Hfc, (spawn_and_dispatch_streaming P _ _ _ _ _ _ Ho).
  rewrite Hc, Ha. cbn [fst snd].
  split; [reflexivity|].
  assert (Hl : (children w ++ [started P text true read w1 o])%list !! length (children w)
               = Some (started P text true read w1 o)) by apply lookup_snoc.
  rewrite (consume_all_drains _ _ (started P text true read w1 o));
    [| reflexivity | exact Hl | reflexivity].
  cbn [fst snd]. split; [reflexivity|]. split; [reflexivity|].
  cbn. rewrite list_lookup_alter_eq, Hl. cbn. unfold drained, started. cbn.
  rewrite Ha. reflexivity.
Qed.

Lemma streaming_delivers_lines_then_exit_status_witness :
  let g := iter_stdout 0 "set -euo pipefail; printf 'x'; exit 3 " in
  let w2 := snd (shell_new posix_demo "printf 'x'; exit 3" [] ∅ ∅ true false None booted) in
  fst (shell_new posix_demo "printf 'x'; exit 3" [] ∅ ∅ true false None booted)
    = inr (RLines g)
  /\ fst (consume_all g w2) =
       (["a"; ""],
        Raised (CalledProcessError 3 "set -euo pipefail; printf 'x'; exit 3 "))
  /\ trace (snd (consume_all g w2)) = (trace w2 ++ [EvWait 0])%list
  /\ children (snd (consume_all g w2)) !! 0 =
       Some {| p_args := popen_call posix_demo "set -euo pipefail; printf 'x'; exit 3 "
                           true false (_process_args booted);
               p_unread := []; p_returncode := 3; p_reaped := true |}.
Proof.
  exact (streaming_delivers_lines_then_exit_status posix_demo "printf 'x'; exit 3" [] ∅ ∅
           false None booted
           (emit (EvShellcmd "printf 'x'; exit 3") booted)
           "set -euo pipefail; printf 'x'; exit 3 " _ eq_refl eq_refl).
Defined.
